(** * Sandboxed execution engine (src/agent/executor.py)

    A shallow embedding of [CodeExecutor], [DependencyManager] and
    [Executor], with the host operating system as an explicit oracle, and
    the properties of the execution engine stated over it. *)

From Stdlib Require Import NArith ZArith Strings.String Strings.Ascii Strings.Byte.
From Stdlib Require Import DecimalString.
From stdpp Require Import base option list gmap.

Open Scope N_scope.

(** ** Python values *)

(** A Python [str] is a sequence of Unicode code points. *)
Definition pystr : Type := list N.

(** A Python [bytes] object. *)
Definition pybytes : Type := list byte.

(** ASCII literals of the source. *)
Definition py (s : string) : pystr :=
  (fun a => N_of_ascii a) <$> list_ascii_of_string s.

(** [str.isspace] on one code point: the interpreter's whitespace table
    (bidirectional class WS, B or S, or general category Zs). *)
Definition isspace (c : N) : bool :=
  ((0x09 <=? c) && (c <=? 0x0D)) || ((0x1C <=? c) && (c <=? 0x20))
  || (c =? 0x85) || (c =? 0xA0) || (c =? 0x1680)
  || ((0x2000 <=? c) && (c <=? 0x200A))
  || (c =? 0x2028) || (c =? 0x2029) || (c =? 0x202F) || (c =? 0x205F)
  || (c =? 0x3000).

(** Maximal non-empty runs of code points that are not separators, in
    order; [tok] is the run being read. *)
Fixpoint tokens (sep : N -> bool) (tok : pystr) (s : pystr) : list pystr :=
  match s with
  | [] => match tok with [] => [] | _ => [tok] end
  | c :: s' =>
      if sep c
      then match tok with [] => tokens sep [] s' | _ => tok :: tokens sep [] s' end
      else tokens sep (tok ++ [c]) s'
  end.

(** [str.split()] without arguments: split on runs of whitespace, no empty
    strings in the result. *)
Definition split (s : pystr) : list pystr := tokens isspace [] s.

(** [str.lower()] on the ASCII letters.  Outside ASCII the interpreter
    follows the Unicode case tables, which are not reproduced here: those
    code points are left as they are.  No text with a code point outside
    ASCII lower-cases to one of the language names of the engine, so the
    dispatch on [language.lower()] is the interpreter's. *)
Definition lower_char (c : N) : N :=
  if (0x41 <=? c) && (c <=? 0x5A) then c + 32 else c.

Definition lower (s : pystr) : pystr := lower_char <$> s.

(** ** Paths (POSIX flavour of [pathlib] and [os.path]) *)

Definition slash : N := 0x2F.
Definition is_slash (c : N) : bool := c =? slash.

(** The root that [pathlib] keeps: exactly two leading slashes are kept,
    one or at least three collapse to one. *)
Definition path_root (p : pystr) : pystr :=
  match p with
  | 0x2F :: 0x2F :: 0x2F :: _ => [slash]
  | 0x2F :: 0x2F :: _ => [slash; slash]
  | 0x2F :: _ => [slash]
  | _ => []
  end.

(** The components of a path: empty components and [.] are dropped. *)
Definition path_parts (p : pystr) : list pystr :=
  filter (fun part => part ≠ py ".") (tokens is_slash [] p).

Fixpoint join_parts (parts : list pystr) : pystr :=
  match parts with
  | [] => []
  | [a] => a
  | a :: rest => a ++ slash :: join_parts rest
  end.

(** [str(PurePosixPath(root, *parts))]. *)
Definition path_str (root : pystr) (parts : list pystr) : pystr :=
  match root, parts with
  | [], [] => py "."
  | _, _ => root ++ join_parts parts
  end.

(** [str(Path(p))]: the spelling under which the file system is keyed. *)
Definition normpath (p : pystr) : pystr := path_str (path_root p) (path_parts p).

(** [str(Path(d) / name)] for a relative [name]. *)
Definition path_join (d name : pystr) : pystr :=
  path_str (path_root d) (path_parts d ++ path_parts name).

(** [os.path.join(d, name)] for a relative [name]. *)
Definition os_path_join (d name : pystr) : pystr :=
  match last d with
  | None => name
  | Some c => if is_slash c then d ++ name else d ++ slash :: name
  end.

(** ** [bytes.decode()] (UTF-8, strict) *)

Definition is_cont (n : N) : bool := (0x80 <=? n) && (n <=? 0xBF).

Definition in_range (lo hi n : N) : bool := (lo <=? n) && (n <=? hi).

Fixpoint utf8_decode (bs : pybytes) : option pystr :=
  match bs with
  | [] => Some []
  | b0 :: r0 =>
      let n0 := Byte.to_N b0 in
      if n0 <? 0x80 then cons n0 <$> utf8_decode r0
      else if in_range 0xC2 0xDF n0 then
        match r0 with
        | b1 :: r1 =>
            let n1 := Byte.to_N b1 in
            if is_cont n1
            then cons ((n0 - 0xC0) * 64 + (n1 - 0x80)) <$> utf8_decode r1
            else None
        | _ => None
        end
      else if in_range 0xE0 0xEF n0 then
        match r0 with
        | b1 :: b2 :: r2 =>
            let n1 := Byte.to_N b1 in
            let n2 := Byte.to_N b2 in
            let lo := if n0 =? 0xE0 then 0xA0 else 0x80 in
            let hi := if n0 =? 0xED then 0x9F else 0xBF in
            if in_range lo hi n1 && is_cont n2
            then cons ((n0 - 0xE0) * 4096 + (n1 - 0x80) * 64 + (n2 - 0x80))
                   <$> utf8_decode r2
            else None
        | _ => None
        end
      else if in_range 0xF0 0xF4 n0 then
        match r0 with
        | b1 :: b2 :: b3 :: r3 =>
            let n1 := Byte.to_N b1 in
            let n2 := Byte.to_N b2 in
            let n3 := Byte.to_N b3 in
            let lo := if n0 =? 0xF0 then 0x90 else 0x80 in
            let hi := if n0 =? 0xF4 then 0x8F else 0xBF in
            if in_range lo hi n1 && is_cont n2 && is_cont n3
            then cons ((n0 - 0xF0) * 262144 + (n1 - 0x80) * 4096
                       + (n2 - 0x80) * 64 + (n3 - 0x80))
                   <$> utf8_decode r3
            else None
        | _ => None
        end
      else None
  end.

(** ** Exceptions *)

(** The exception classes that reach the engine.  [CancelledError] stands
    for the signals that derive from [BaseException] only; every other
    class derives from [Exception]. *)
Inductive ExnClass :=
  | TimeoutError | FileNotFoundError | FileExistsError | IsADirectoryError
  | UnboundLocalError | UnicodeDecodeError | ProcessLookupError | OSError
  | CancelledError.

Global Instance ExnClass_eq_dec : EqDecision ExnClass.
Proof. solve_decision. Defined.

Record Exn := mkExn { exn_class : ExnClass; exn_msg : pystr }.

(** [isinstance(e, Exception)]. *)
Definition is_Exception (e : Exn) : bool :=
  match exn_class e with CancelledError => false | _ => true end.

Definition is_class (c : ExnClass) (e : Exn) : bool := bool_decide (exn_class e = c).

(** [str(e)]. *)
Definition str_exn (e : Exn) : pystr := exn_msg e.

(** ** The host: file system, processes, temporary names *)

Inductive Resource := RLIMIT_AS | RLIMIT_CPU | RLIMIT_NPROC.

(** One [resource.setrlimit(res, (soft, hard))] call. *)
Record Rlimit := mkRlimit { rl_resource : Resource; rl_soft : N; rl_hard : N }.

Inductive Command :=
  | Exec (argv : list pystr)     (* create_subprocess_exec with these arguments *)
  | Shell (cmd : pystr).         (* create_subprocess_shell with this text *)

(** A call of [asyncio.create_subprocess_*]: the command and what
    [preexec_fn] does in the child ([None]: no hook). *)
Record Spawn := mkSpawn { command : Command; preexec : option (list Rlimit) }.

(** The files (path to text) and the directories of the host. *)
Record FS := mkFS { files : gmap pystr pystr; dirs : gset pystr }.

(** How a child runs: it exits after [t] whole seconds with a return code
    and what it wrote to its two pipes, or it never exits by itself. *)
Inductive Run :=
  | Exits (t : N) (returncode : Z) (stdout stderr : pybytes)
  | Runs_forever.

(** A child process: its run and what it does to the file system. *)
Record Behaviour := mkBehaviour { run : Run; effect : FS -> FS }.

(** A handle on a spawned child. *)
Record Process := mkProcess { pid : nat; behaviour : Behaviour }.

(** The mutable state of the host. *)
Record Sys := mkSys {
  fs : FS;
  spawned : list Spawn;        (* every create_subprocess_* call, in order *)
  terminated : list nat;       (* pids that received terminate() *)
  tmp_names : list pystr;      (* what mkdtemp's name generator yields next *)
  logged : list pystr          (* logger.error records *)
}.

Inductive WriteOutcome :=
  | Written
  | WriteFails (e : Exn) (left_behind : option pystr).
      (* the write raises; a file with partial text may have been created *)

(** What the engine does not decide: the interpreter's constants and how
    the operating system answers. *)
Record Host := mkHost {
  sys_executable : pystr;
  sys_platform : pystr;
  gettempdir : pystr;
  write_outcome : Sys -> pystr -> pystr -> WriteOutcome;
  spawn_outcome : Sys -> Spawn -> Exn + Behaviour;
  exited_at_terminate : Process -> bool
    (* for a child that exits by itself: whether it has already done so
       when terminate() reaches it, the race at a deadline *)
}.

(** ** Computations *)

(** A call returns, raises, or never comes back. *)
Inductive Outcome (A : Type) :=
  | Ret (a : A)
  | Raise (e : Exn)
  | Hang.
Arguments Ret {A} a.
Arguments Raise {A} e.
Arguments Hang {A}.

Definition M (A : Type) : Type := Host -> Sys -> Outcome A * Sys.

Definition ret {A} (a : A) : M A := fun _ s => (Ret a, s).
Definition raise {A} (e : Exn) : M A := fun _ s => (Raise e, s).

Definition bind {A B} (m : M A) (k : A -> M B) : M B :=
  fun h s =>
    match m h s with
    | (Ret a, s') => k a h s'
    | (Raise e, s') => (Raise e, s')
    | (Hang, s') => (Hang, s')
    end.

Declare Scope py_scope.
Delimit Scope py_scope with py.
Notation "'do' x <- m ; k" := (bind m (fun x => k))
  (at level 10, x pattern, m at level 100, k at level 200) : py_scope.
Notation "'do_' m ; k" := (bind m (fun _ => k))
  (at level 10, m at level 100, k at level 200) : py_scope.
Open Scope py_scope.

(** [try: m except ...: handler]: the handler re-raises what no clause
    matches. *)
Definition try_except {A} (m : M A) (handler : Exn -> M A) : M A :=
  fun h s =>
    match m h s with
    | (Raise e, s') => handler e h s'
    | r => r
    end.

(** [try: m finally: fin]: [fin] runs after [m] returned or raised, and an
    exception of [fin] replaces the outcome of [m]. *)
Definition try_finally {A} (m : M A) (fin : M unit) : M A :=
  fun h s =>
    match m h s with
    | (Hang, s') => (Hang, s')
    | (o, s') =>
        match fin h s' with
        | (Ret _, s'') => (o, s'')
        | (Raise e, s'') => (Raise e, s'')
        | (Hang, s'') => (Hang, s'')
        end
    end.

(** Runs [m] and hands a raised exception back as a value: the point of a
    [try] body up to which a local variable is not bound yet. *)
Definition attempt {A} (m : M A) : M (A + Exn) :=
  fun h s =>
    match m h s with
    | (Ret a, s') => (Ret (inl a), s')
    | (Raise e, s') => (Ret (inr e), s')
    | (Hang, s') => (Hang, s')
    end.

Definition get_host : M Host := fun h s => (Ret h, s).

Definition set_fs (s : Sys) (f : FS) : Sys :=
  mkSys f (spawned s) (terminated s) (tmp_names s) (logged s).

(** *** File system primitives *)

Definition is_file (f : FS) (p : pystr) : bool := bool_decide (is_Some (files f !! normpath p)).
Definition is_dir (f : FS) (p : pystr) : bool := bool_decide (normpath p ∈ dirs f).

(** [Path.exists()]. *)
Definition path_exists (p : pystr) : M bool :=
  fun _ s => (Ret (is_file (fs s) p || is_dir (fs s) p), s).

(** [os.path.exists(p)] on a string: the empty string names nothing. *)
Definition os_path_exists (p : pystr) : M bool :=
  fun _ s =>
    (Ret (match p with
          | [] => false
          | _ => is_file (fs s) p || is_dir (fs s) p
          end), s).

(** [Path.write_text(text)]. *)
Definition write_text (p text : pystr) : M unit :=
  fun h s =>
    if is_dir (fs s) p
    then (Raise (mkExn IsADirectoryError (py "Is a directory")), s)
    else match write_outcome h s p text with
         | Written =>
             (Ret (), set_fs s (mkFS (<[normpath p := text]> (files (fs s))) (dirs (fs s))))
         | WriteFails e None => (Raise e, s)
         | WriteFails e (Some partial) =>
             (Raise e, set_fs s (mkFS (<[normpath p := partial]> (files (fs s))) (dirs (fs s))))
         end.

(** [Path.unlink()]. *)
Definition unlink (p : pystr) : M unit :=
  fun _ s =>
    if is_file (fs s) p
    then (Ret (), set_fs s (mkFS (delete (normpath p) (files (fs s))) (dirs (fs s))))
    else if is_dir (fs s) p
    then (Raise (mkExn IsADirectoryError (py "Is a directory")), s)
    else (Raise (mkExn FileNotFoundError (py "No such file or directory")), s).

(** The components of a path once every [..] is resolved by its text,
    there being no symbolic links in the model: a [..] cancels the name
    before it, is dropped at the root, and stays at the start of a relative
    path.  [seen] holds the components resolved so far. *)
Fixpoint resolve_parts (absolute : bool) (seen parts : list pystr) : list pystr :=
  match parts with
  | [] => seen
  | p :: rest =>
      if bool_decide (p = py "..")
      then match last seen with
           | Some x =>
               if bool_decide (x = py "..")
               then resolve_parts absolute (seen ++ [p]) rest
               else resolve_parts absolute (removelast seen) rest
           | None =>
               if absolute then resolve_parts absolute [] rest
               else resolve_parts absolute [p] rest
           end
      else resolve_parts absolute (seen ++ [p]) rest
  end.

Definition resolved (p : pystr) : list pystr :=
  resolve_parts (bool_decide (path_root p ≠ [])) [] (path_parts p).

(** What is left of [l] after the prefix [p], if [p] is one. *)
Fixpoint strip_prefix (p l : list pystr) : option (list pystr) :=
  match p, l with
  | [], _ => Some l
  | a :: p', b :: l' => if bool_decide (a = b) then strip_prefix p' l' else None
  | _ :: _, [] => None
  end.

(** Whether path [q] lies strictly below directory [d]: same root, and the
    resolved components of [q] go on from those of [d] with a name.
    Relative and absolute paths are kept apart (the model has no current
    directory). *)
Definition below (d q : pystr) : bool :=
  bool_decide (path_root d = path_root q)
  && match strip_prefix (resolved d) (resolved q) with
     | Some (x :: _) => negb (bool_decide (x = py ".."))
     | _ => false
     end.

(** Whether [os.rmdir(d)] is refused whatever the directory holds: the
    last component of the path as written is [.] or [..], or there is none
    (the root). *)
Definition rmdir_refused (d : pystr) : bool :=
  match last (tokens is_slash [] d) with
  | None => true
  | Some c => bool_decide (c = py ".") || bool_decide (c = py "..")
  end.

(** [shutil.rmtree(d, ignore_errors=True)]: on a directory, all below it
    goes, and the directory itself unless [rmdir] refuses it; on anything
    else, and on the empty string, nothing happens; nothing is raised.
    Each removal is taken to succeed, as for [unlink]: one that the host
    refuses (permissions, a busy file) is a fault that [ignore_errors]
    swallows and the model does not describe. *)
Definition rmtree_ignore_errors (d : pystr) : M unit :=
  fun _ s =>
    let d' := normpath d in
    if bool_decide (d ≠ []) && is_dir (fs s) d
    then (Ret (),
          set_fs s (mkFS (filter (fun kv => below d' kv.1 = false) (files (fs s)))
                         (filter (fun q => (q ≠ d' ∨ rmdir_refused d = true)
                                           ∧ below d' q = false) (dirs (fs s)))))
    else (Ret (), s).

(** The first candidate name that is not taken, and the candidates left. *)
Fixpoint pick_name (taken : pystr -> bool) (mk : pystr -> pystr) (names : list pystr)
  : option (pystr * list pystr) :=
  match names with
  | [] => None
  | n :: rest => if taken (mk n) then pick_name taken mk rest else Some (mk n, rest)
  end.

(** [tempfile.mkdtemp(prefix=...)]: creates a directory that did not exist
    and returns its path. *)
Definition mkdtemp (prefix : pystr) : M pystr :=
  fun h s =>
    let mk n := os_path_join (gettempdir h) (prefix ++ n) in
    match pick_name (fun p => is_file (fs s) p || is_dir (fs s) p) mk (tmp_names s) with
    | None =>
        (Raise (mkExn FileExistsError (py "No usable temporary directory name found")),
         mkSys (fs s) (spawned s) (terminated s) [] (logged s))
    | Some (p, rest) =>
        (Ret p, mkSys (mkFS (files (fs s)) ({[normpath p]} ∪ dirs (fs s)))
                      (spawned s) (terminated s) rest (logged s))
    end.

(** *** Process primitives *)

(** [asyncio.create_subprocess_exec] / [create_subprocess_shell]: the call
    is recorded, then the host answers. *)
Definition create_subprocess (sp : Spawn) : M Process :=
  fun h s =>
    let s' := mkSys (fs s) (spawned s ++ [sp]) (terminated s) (tmp_names s) (logged s) in
    match spawn_outcome h s sp with
    | inl e => (Raise e, s')
    | inr b => (Ret (mkProcess (length (spawned s)) b), s')
    end.

(** [await process.communicate()]: waits for the exit, however long. *)
Definition communicate (p : Process) : M (Z * pybytes * pybytes) :=
  fun _ s =>
    match run (behaviour p) with
    | Exits _ rc out err => (Ret (rc, out, err), set_fs s (effect (behaviour p) (fs s)))
    | Runs_forever => (Hang, set_fs s (effect (behaviour p) (fs s)))
    end.

(** [await asyncio.wait_for(process.communicate(), timeout)]. *)
Definition wait_for_communicate (p : Process) (timeout : N) : M (Z * pybytes * pybytes) :=
  fun _ s =>
    let s' := set_fs s (effect (behaviour p) (fs s)) in
    match run (behaviour p) with
    | Exits t rc out err =>
        if t <? timeout then (Ret (rc, out, err), s')
        else (Raise (mkExn TimeoutError []), s')
    | Runs_forever => (Raise (mkExn TimeoutError []), s')
    end.

(** [process.terminate()]: the signal is sent to a child that is still
    there; once the child has exited, the call raises
    [ProcessLookupError]. *)
Definition terminate (p : Process) : M unit :=
  fun h s =>
    let sent :=
      (Ret (), mkSys (fs s) (spawned s) (terminated s ++ [pid p]) (tmp_names s) (logged s)) in
    match run (behaviour p) with
    | Exits _ _ _ _ =>
        if exited_at_terminate h p
        then (Raise (mkExn ProcessLookupError []), s)
        else sent
    | Runs_forever => sent
    end.

(** [logger.error(msg)]. *)
Definition logger_error (msg : pystr) : M unit :=
  fun _ s => (Ret (), mkSys (fs s) (spawned s) (terminated s) (tmp_names s) (logged s ++ [msg])).

(** [b.decode()]. *)
Definition decode (b : pybytes) : M pystr :=
  match utf8_decode b with
  | Some s => ret s
  | None => raise (mkExn UnicodeDecodeError (py "'utf-8' codec can't decode bytes"))
  end.

(** ** The engine *)

Module ResourceLimits.
Definition MAX_MEMORY : N := 512 * 1024 * 1024.
Definition MAX_TIME : N := 30.
Definition MAX_PROCESSES : N := 5.
End ResourceLimits.

(** The values that the result dictionaries hold. *)
Inductive PyVal :=
  | VNone
  | VBool (b : bool)
  | VInt (z : Z)
  | VStr (s : pystr)
  | VList (l : list pystr).

(** [d.get(key, default)]. *)
Definition dict_get (d : gmap pystr PyVal) (key : pystr) (default : PyVal) : PyVal :=
  match d !! key with
  | Some v => v
  | None => default
  end.

(** [text if text is not None else None] as a dictionary value. *)
Definition VOpt (o : option pystr) : PyVal :=
  match o with
  | Some s => VStr s
  | None => VNone
  end.

Module ExecutionResult.
Record t := mk {
  success : bool;
  output : pystr;
  error : option pystr;
  execution_time : Z;
  memory_usage : Z
}.

(** The constructor with its defaults [execution_time=0],
    [memory_usage=0]. *)
Definition new (success : bool) (output : pystr) (error : option pystr) : t :=
  mk success output error 0 0.

Definition to_dict (self : t) : gmap pystr PyVal :=
  <[py "memory" := VInt (memory_usage self)]>
    (<[py "time" := VInt (execution_time self)]>
       (<[py "error" := VOpt (error self)]>
          (<[py "output" := VStr (output self)]>
             (<[py "success" := VBool (success self)]> ∅)))).
End ExecutionResult.

(** [workspace_dir or tempfile.mkdtemp(prefix="ai_agent_")]: [None] and the
    empty string are falsy. *)
Definition or_mkdtemp (workspace_dir : option pystr) : M pystr :=
  match workspace_dir with
  | Some (c :: d) => ret (c :: d)
  | _ => mkdtemp (py "ai_agent_")
  end.

Module CodeExecutor.
Import ExecutionResult.

Record t := mk { workspace_dir : pystr }.

Definition init (workspace_dir : option pystr) : M t :=
  do d <- or_mkdtemp workspace_dir;
  ret (mk d).

Definition _apply_limits : list Rlimit :=
  [ mkRlimit RLIMIT_AS ResourceLimits.MAX_MEMORY ResourceLimits.MAX_MEMORY;
    mkRlimit RLIMIT_CPU ResourceLimits.MAX_TIME ResourceLimits.MAX_TIME;
    mkRlimit RLIMIT_NPROC ResourceLimits.MAX_PROCESSES ResourceLimits.MAX_PROCESSES ].

(** [self._apply_limits if sys.platform != "win32" else None]. *)
Definition preexec_fn (h : Host) : option (list Rlimit) :=
  if bool_decide (sys_platform h ≠ py "win32") then Some _apply_limits else None.

(** The expression that the three runners return after [communicate]:
    [ExecutionResult(success=process.returncode == 0,
    output=stdout.decode(), error=stderr.decode() if stderr else None)]. *)
Definition exit_result (returncode : Z) (stdout stderr : pybytes) : M ExecutionResult.t :=
  do out <- decode stdout;
  do err <- match stderr with
            | [] => ret None
            | _ => do e <- decode stderr; ret (Some e)
            end;
  ret (new (returncode =? 0)%Z out err).

(** The local [temp_file] of the two file-backed runners. *)
Definition python_temp_file (self : t) : pystr := path_join (workspace_dir self) (py "script.py").
Definition javascript_temp_file (self : t) : pystr := path_join (workspace_dir self) (py "script.js").

(** The [finally] clause of the two file-backed runners. *)
Definition remove_temp_file (temp_file : pystr) : M unit :=
  do present <- path_exists temp_file;
  if present then unlink temp_file else ret ().

(** In the [try] body [process] is bound by the spawn; an exception
    raised before that reaches the [except asyncio.TimeoutError] clause
    with [process] unbound. *)
Definition _execute_python (self : t) (code : pystr) : M ExecutionResult.t :=
  let temp_file := python_temp_file self in
  try_finally
    (do h <- get_host;
     do started <- attempt
       (do_ write_text temp_file code;
        create_subprocess (mkSpawn (Exec [sys_executable h; temp_file]) (preexec_fn h)));
     match started with
     | inr e =>
         if is_class TimeoutError e
         then raise (mkExn UnboundLocalError
                (py "cannot access local variable 'process' where it is not associated with a value"))
         else raise e
     | inl process =>
         try_except
           (do (returncode, stdout, stderr) <-
               wait_for_communicate process ResourceLimits.MAX_TIME;
            exit_result returncode stdout stderr)
           (fun e =>
              if is_class TimeoutError e
              then do_ terminate process;
                   ret (new false [] (Some (py "Execution timeout")))
              else raise e)
     end)
    (remove_temp_file temp_file).

Definition _execute_javascript (self : t) (code : pystr) : M ExecutionResult.t :=
  let temp_file := javascript_temp_file self in
  try_finally
    (try_except
       (do h <- get_host;
        do_ write_text temp_file code;
        do process <- create_subprocess (mkSpawn (Exec [py "node"; temp_file]) (preexec_fn h));
        do (returncode, stdout, stderr) <- communicate process;
        exit_result returncode stdout stderr)
       (fun e =>
          if is_class FileNotFoundError e
          then ret (new false [] (Some (py "Node.js is not installed")))
          else raise e))
    (remove_temp_file temp_file).

Definition allowed_commands : gset pystr :=
  {[ py "echo"; py "ls"; py "pwd"; py "whoami"; py "date" ]}.

(** [any(cmd not in allowed_commands for cmd in code.split())]. *)
Definition unsafe (code : pystr) : bool :=
  existsb (fun cmd => bool_decide (cmd ∉ allowed_commands)) (split code).

Definition _execute_shell (self : t) (code : pystr) : M ExecutionResult.t :=
  if unsafe code
  then ret (new false [] (Some (py "Unsafe command detected")))
  else
    do h <- get_host;
    do process <- create_subprocess (mkSpawn (Shell code) (preexec_fn h));
    do (returncode, stdout, stderr) <- communicate process;
    exit_result returncode stdout stderr.

Definition supported_languages (self : t) : gmap pystr (pystr -> M ExecutionResult.t) :=
  <[py "shell" := _execute_shell self]>
    (<[py "javascript" := _execute_javascript self]>
       (<[py "python" := _execute_python self]> ∅)).

Definition execute_code (self : t) (code language : pystr) : M ExecutionResult.t :=
  match supported_languages self !! lower language with
  | None => ret (new false [] (Some (py "Unsupported language: " ++ language)))
  | Some executor =>
      try_except (executor code)
        (fun e =>
           if is_Exception e
           then do_ logger_error (py "Execution error: " ++ str_exn e);
                ret (new false [] (Some (str_exn e)))
           else raise e)
  end.
End CodeExecutor.

Module DependencyManager.
Record t := mk { package_managers : gmap pystr (pystr * pystr) }.

Definition init : t :=
  mk (<[py "javascript" := (py "npm", py "install")]>
        (<[py "python" := (py "pip", py "install")]> ∅)).

Definition install_dependencies (self : t) (packages : list pystr) (language : pystr)
  : M (gmap pystr PyVal) :=
  match packages with
  | [] =>
      ret (<[py "output" := VStr (py "No packages to install")]>
             (<[py "success" := VBool true]> ∅))
  | _ =>
      match package_managers self !! language with
      | None =>
          ret (<[py "output" := VStr (py "Unsupported language: " ++ language)]>
                 (<[py "success" := VBool false]> ∅))
      | Some (package_manager, install_cmd) =>
          try_except
            (do process <- create_subprocess
                 (mkSpawn (Exec (package_manager :: install_cmd :: packages)) None);
             do (returncode, stdout, stderr) <- communicate process;
             do out <- decode stdout;
             do err <- match stderr with
                       | [] => ret None
                       | _ => do e <- decode stderr; ret (Some e)
                       end;
             ret (<[py "installed" := VList (if (returncode =? 0)%Z then packages else [])]>
                    (<[py "error" := VOpt err]>
                       (<[py "output" := VStr out]>
                          (<[py "success" := VBool (returncode =? 0)%Z]> ∅)))))
            (fun e =>
               if is_Exception e
               then ret (<[py "installed" := VList []]>
                           (<[py "error" := VStr (str_exn e)]>
                              (<[py "output" := VStr []]>
                                 (<[py "success" := VBool false]> ∅))))
               else raise e)
      end
  end.
End DependencyManager.

Module Executor.
Record t := mk {
  code_executor : CodeExecutor.t;
  dependency_manager : DependencyManager.t;
  workspace_dir : pystr
}.

Definition init (workspace_dir : option pystr) : M t :=
  do ce <- CodeExecutor.init workspace_dir;
  let dm := DependencyManager.init in
  do d <- or_mkdtemp workspace_dir;
  ret (mk ce dm d).

Definition execute_code (self : t) (code language : pystr) : M (gmap pystr PyVal) :=
  do result <- CodeExecutor.execute_code (code_executor self) code language;
  ret (ExecutionResult.to_dict result).

Definition install_dependencies (self : t) (packages : list pystr) (language : pystr)
  : M (gmap pystr PyVal) :=
  DependencyManager.install_dependencies (dependency_manager self) packages language.

Definition cleanup (self : t) : M unit :=
  do present <- os_path_exists (workspace_dir self);
  if present then rmtree_ignore_errors (workspace_dir self) else ret ().
End Executor.

(** ** Sample hosts and engines *)

(** A host on which every write succeeds and every child behaves as [b]
    and is still there when it is terminated. *)
Definition sample_host (b : Behaviour) : Host :=
  mkHost (py "/usr/bin/python3") (py "linux") (py "/tmp")
         (fun _ _ _ => Written) (fun _ _ => inr b) (fun _ => false).

(** A host on which no program can be started. *)
Definition host_without_runtime : Host :=
  mkHost (py "/usr/bin/python3") (py "linux") (py "/tmp")
         (fun _ _ _ => Written)
         (fun _ _ => inl (mkExn FileNotFoundError (py "No such file or directory")))
         (fun _ => false).

(** A child that exits at once with the given code and pipes. *)
Definition exits_with (t : N) (rc : Z) (out err : pybytes) : Behaviour :=
  mkBehaviour (Exits t rc out err) id.

(** A state with the directory [/ws] and the given temporary names. *)
Definition sample_sys (names : list pystr) : Sys :=
  mkSys (mkFS ∅ {[py "/ws"]}) [] [] names [].

Definition sample_executor : CodeExecutor.t := CodeExecutor.mk (py "/ws").

Definition sample_engine : Executor.t :=
  Executor.mk sample_executor DependencyManager.init (py "/ws").

(** The faults of the host are the expected ones: whatever a write or a
    spawn raises derives from [Exception]. *)
Definition expected_faults (h : Host) : Prop :=
  (∀ s p text e l, write_outcome h s p text = WriteFails e l → is_Exception e = true) ∧
  (∀ s sp e, spawn_outcome h s sp = inl e → is_Exception e = true).

(** [m] raises nothing but what derives from [Exception], on a host with
    the expected faults. *)
Definition raises_only_exceptions {A} (m : M A) : Prop :=
  ∀ h s e s', expected_faults h → m h s = (Raise e, s') → is_Exception e = true.

(** [m] always comes back, with a value or an exception. *)
Definition comes_back {A} (m : M A) : Prop := ∀ h s, (m h s).1 ≠ Hang.

(** On host [h], whatever [m] returns satisfies [Q]. *)
Definition returns_with {A} (h : Host) (m : M A) (Q : A → Prop) : Prop :=
  ∀ s a s', m h s = (Ret a, s') → Q a.







(** On host [h], every process that [m] spawns satisfies [P]. *)
Definition spawns_only {A} (h : Host) (m : M A) (P : Spawn → Prop) : Prop :=
  ∀ s sp, sp ∈ spawned (m h s).2 → sp ∈ spawned s ∨ P sp.

(** ** The dispatcher (src/agent/core.py) *)

(** [s[start:stop]]: a negative index counts from the end, and both are
    clamped to the text. *)
Definition slice (s : pystr) (start stop : Z) : pystr :=
  let n := Z.of_nat (length s) in
  let adjust i := if (i <? 0)%Z then Z.max 0 (i + n) else Z.min i n in
  take (Z.to_nat (adjust stop - adjust start)) (drop (Z.to_nat (adjust start)) s).

(** [str(n)] for an integer. *)
Definition str_int (z : Z) : pystr := py (NilZero.string_of_int (Z.to_int z)).

(** [sep.join(items)]. *)
Fixpoint join (sep : pystr) (items : list pystr) : pystr :=
  match items with
  | [] => []
  | [a] => a
  | a :: rest => a ++ sep ++ join sep rest
  end.

Definition newline : pystr := [10].

Inductive OperationType := SUGGEST | EDIT | TEST | INSTALL | EXECUTE.

(** The value of a member of the enumeration. *)
Definition operation_type_value (o : OperationType) : pystr :=
  match o with
  | SUGGEST => py "suggest"
  | EDIT => py "edit"
  | TEST => py "test"
  | INSTALL => py "install"
  | EXECUTE => py "execute"
  end.

Module CodeOperation.
(** [parameters] holds its values at the type of the one entry that the
    dispatcher reads, [packages]: a list of strings. *)
Record t := mk {
  operation_type : OperationType;
  content : pystr;
  file_path : option pystr;
  language : pystr;
  cursor_position : option Z;
  selected_text : option pystr;
  parameters : gmap pystr (list pystr)
}.
End CodeOperation.

Module OperationResult.
Record t := mk {
  success : bool;
  content : pystr;
  metadata : gmap pystr PyVal;
  errors : list pystr
}.
End OperationResult.

Module CodeAnalyzer.
(** [code[max(0, position - window_size):min(len(code), position + window_size)]]. *)
Definition get_context_window (code : pystr) (position window_size : Z) : pystr :=
  let start := Z.max 0 (position - window_size) in
  let stop := Z.min (Z.of_nat (length code)) (position + window_size) in
  slice code start stop.
End CodeAnalyzer.

Module AIAgent.
(** The completion provider answers a prompt with a text, an exception, or
    not at all; it does not act on the host.  [extract_imports] goes
    through the parser of the interpreter, which is not modelled: the
    agent carries its result as a function. *)
Record t := mk {
  generate_response : pystr -> Outcome pystr;
  executor : Executor.t;
  extract_imports : pystr -> list pystr
}.

(** [await self.provider.generate_response(prompt)]. *)
Definition ask (self : t) (prompt : pystr) : M pystr :=
  fun _ s => (generate_response self prompt, s).

Definition _handle_suggest (self : t) (operation : CodeOperation.t) : M OperationResult.t :=
  let imports := extract_imports self (CodeOperation.content operation) in
  let prompt :=
    py "Given the following code context in " ++ CodeOperation.language operation
    ++ py ":" ++ newline ++ newline
    ++ CodeOperation.content operation ++ newline ++ newline
    ++ py "Current imports: " ++ join (py ", ") imports ++ newline
    ++ py "Cursor position: "
    ++ match CodeOperation.cursor_position operation with
       | Some z => str_int z
       | None => py "None"
       end
    ++ newline ++ newline
    ++ py "Please suggest completions or improvements for this code." in
  do response <- ask self prompt;
  ret (OperationResult.mk true response (<[py "imports" := VList imports]> ∅) []).

Definition _handle_edit (self : t) (operation : CodeOperation.t) : M OperationResult.t :=
  let window :=
    match CodeOperation.cursor_position operation with
    | None | Some 0%Z => None
    | Some z => Some (CodeAnalyzer.get_context_window (CodeOperation.content operation) z 100)
    end in
  let shown := match window with Some (c :: w) => Some (c :: w) | _ => None end in
  let prompt :=
    py "Edit the following code in " ++ CodeOperation.language operation
    ++ py ":" ++ newline ++ newline
    ++ CodeOperation.content operation ++ newline ++ newline
    ++ match shown with Some _ => py "Context around cursor:" | None => [] end ++ newline
    ++ match shown with Some w => w | None => [] end ++ newline ++ newline
    ++ py "Please provide the edited code with improvements or fixes." in
  do response <- ask self prompt;
  ret (OperationResult.mk true response
         (<[py "modified_at" := match CodeOperation.cursor_position operation with
                                | Some z => VInt z
                                | None => VNone
                                end]> ∅) []).

Definition _handle_test (self : t) (operation : CodeOperation.t) : M OperationResult.t :=
  let prompt :=
    py "Generate tests for the following " ++ CodeOperation.language operation
    ++ py " code:" ++ newline ++ newline
    ++ CodeOperation.content operation ++ newline ++ newline
    ++ py "Please provide comprehensive test cases covering the main functionality." in
  do response <- ask self prompt;
  ret (OperationResult.mk true response (<[py "test_framework" := VStr (py "pytest")]> ∅) []).

(** [result.get("success", False)] and [result.get("output", "")]. *)
Definition get_success (result : gmap pystr PyVal) : bool :=
  match dict_get result (py "success") (VBool false) with
  | VBool b => b
  | _ => false
  end.

Definition get_output (result : gmap pystr PyVal) : pystr :=
  match dict_get result (py "output") (VStr []) with
  | VStr text => text
  | _ => []
  end.

(** The language of the operation is not passed on: the installer runs
    with its default, ["python"]. *)
Definition _handle_install (self : t) (operation : CodeOperation.t) : M OperationResult.t :=
  do result <- Executor.install_dependencies (executor self)
                 (default [] (CodeOperation.parameters operation !! py "packages"))
                 (py "python");
  ret (OperationResult.mk (get_success result) (get_output result)
         (<[py "installed_packages" := dict_get result (py "installed") (VList [])]> ∅) []).

Definition _handle_execute (self : t) (operation : CodeOperation.t) : M OperationResult.t :=
  do result <- Executor.execute_code (executor self)
                 (CodeOperation.content operation) (CodeOperation.language operation);
  ret (OperationResult.mk (get_success result) (get_output result)
         (<[py "memory_usage" := dict_get result (py "memory") (VInt 0)]>
            (<[py "execution_time" := dict_get result (py "time") (VInt 0)]> ∅)) []).

(** [self._operation_handlers.get(operation_type)]. *)
Definition _operation_handlers (self : t) (o : OperationType)
  : option (CodeOperation.t -> M OperationResult.t) :=
  match o with
  | SUGGEST => Some (_handle_suggest self)
  | EDIT => Some (_handle_edit self)
  | TEST => Some (_handle_test self)
  | INSTALL => Some (_handle_install self)
  | EXECUTE => Some (_handle_execute self)
  end.

Definition execute_operation (self : t) (operation : CodeOperation.t) : M OperationResult.t :=
  try_except
    (match _operation_handlers self (CodeOperation.operation_type operation) with
     | None =>
         ret (OperationResult.mk false [] ∅
                [py "Unsupported operation type: "
                 ++ operation_type_value (CodeOperation.operation_type operation)])
     | Some handler => handler operation
     end)
    (fun e =>
       if is_Exception e
       then ret (OperationResult.mk false [] ∅ [py "Operation failed: " ++ str_exn e])
       else raise e).
End AIAgent.

(** ** More sample data *)

(** A host on which the workspace directory is missing: no file can be
    written. *)
Definition host_without_workspace : Host :=
  mkHost (py "/usr/bin/python3") (py "linux") (py "/tmp")
         (fun _ _ _ => WriteFails (mkExn FileNotFoundError (py "No such file or directory")) None)
         (fun _ _ => inr (exits_with 0 0 [] []))
         (fun _ => false).

(** A provider that echoes the prompt. *)
Definition sample_agent : AIAgent.t :=
  AIAgent.mk (fun prompt => Ret prompt) sample_engine (fun _ => []).

Definition sample_operation (o : OperationType) (content language : pystr)
    (packages : list pystr) : CodeOperation.t :=
  CodeOperation.mk o content None language None None (<[py "packages" := packages]> ∅).

(** [m] leaves the log of spawned processes as it was. *)
Definition keeps_spawned {A} (m : M A) : Prop := ∀ h s, spawned (m h s).2 = spawned s.

(** On host [h], [m] spawns at most [n] processes, each satisfying [P]. *)
Definition spawns_at_most {A} (h : Host) (n : nat) (m : M A) (P : Spawn → Prop) : Prop :=
  ∀ s, ∃ l, spawned (m h s).2 = spawned s ++ l ∧ (length l ≤ n)%nat ∧ Forall P l.

(** [m] leaves the host as it was. *)
Definition keeps_host {A} (m : M A) : Prop := ∀ h s, (m h s).2 = s.

(** * Properties *)

Import ExecutionResult.

(** ** Tokenisation *)

Lemma tokens_nil sep tok s :
  tokens sep tok s = [] ↔ tok = [] ∧ forallb sep s = true.
Proof.
  revert tok. induction s as [|c s IH]; intros tok; simpl.
  - destruct tok; split; intros H; try done. by destruct H.
  - destruct (sep c) eqn:Hc; simpl.
    + destruct tok as [|a tok].
      * rewrite IH. tauto.
      * split; [done | by intros [? _]].
    + rewrite IH. split; [|by intros [_ ?]].
      intros [H _]. by destruct tok.
Qed.

(** [code.split()] is empty exactly for the empty or whitespace-only text. *)
Lemma split_nil code : split code = [] ↔ forallb isspace code = true.
Proof. unfold split. rewrite tokens_nil. tauto. Qed.

(** A token is never empty and holds no separator. *)
Lemma tokens_wf sep tok s t :
  forallb (fun c => negb (sep c)) tok = true →
  t ∈ tokens sep tok s → t ≠ [] ∧ forallb (fun c => negb (sep c)) t = true.
Proof.
  revert tok. induction s as [|c s IH]; intros tok Htok; simpl.
  - destruct tok; [by intros ?%elem_of_nil|].
    intros ->%list_elem_of_singleton. done.
  - destruct (sep c) eqn:Hc.
    + destruct tok as [|a tok]; [by apply IH|].
      intros [->|H]%elem_of_cons; [done|]. by apply (IH []).
    + apply IH. rewrite forallb_app, Htok. simpl. by rewrite Hc.
Qed.

Lemma split_wf code t :
  t ∈ split code → t ≠ [] ∧ forallb (fun c => negb (isspace c)) t = true.
Proof. by apply tokens_wf. Qed.

(** The guard of the shell runner fires exactly when some token is not an
    allowed command. *)
Lemma unsafe_spec code :
  CodeExecutor.unsafe code = true ↔
  ∃ tok, tok ∈ split code ∧ tok ∉ CodeExecutor.allowed_commands.
Proof.
  unfold CodeExecutor.unsafe. rewrite existsb_exists. split.
  - intros (tok & Hin & Hb). exists tok. split; [by apply list_elem_of_In|].
    by apply bool_decide_eq_true in Hb.
  - intros (tok & Hin & Hb). exists tok. split; [by apply list_elem_of_In|].
    by apply bool_decide_eq_true.
Qed.

(** ** The dispatch table *)

Lemma lower_shell : lower (py "shell") = py "shell".
Proof. reflexivity. Qed.

Lemma supported_shell self :
  CodeExecutor.supported_languages self !! py "shell" = Some (CodeExecutor._execute_shell self).
Proof. unfold CodeExecutor.supported_languages. apply lookup_insert_eq. Qed.

Lemma supported_lookup self k :
  CodeExecutor.supported_languages self !! k =
    if decide (k = py "shell") then Some (CodeExecutor._execute_shell self)
    else if decide (k = py "javascript") then Some (CodeExecutor._execute_javascript self)
    else if decide (k = py "python") then Some (CodeExecutor._execute_python self)
    else None.
Proof.
  unfold CodeExecutor.supported_languages.
  repeat case_decide; subst; simplify_map_eq; done.
Qed.

(** ** The shell runner *)

(** C2: a shell command text with a whitespace-separated token outside the
    allow-list is rejected with success=false and error "Unsafe command
    detected", by the executor and by the facade, and the host is left as
    it was: no child process is spawned. *)
Theorem shell_unsafe_token_rejected (engine : Executor.t) (code tok : pystr) (h : Host) (s : Sys) :
  tok ∈ split code →
  tok ∉ CodeExecutor.allowed_commands →
  CodeExecutor.execute_code (Executor.code_executor engine) code (py "shell") h s
    = (Ret (new false [] (Some (py "Unsafe command detected"))), s)
  ∧ ∃ d, Executor.execute_code engine code (py "shell") h s = (Ret d, s)
         ∧ d !! py "success" = Some (VBool false)
         ∧ d !! py "error" = Some (VStr (py "Unsafe command detected")).
Proof.
  intros Hin Hout.
  assert (Hu : CodeExecutor.unsafe code = true) by (apply unsafe_spec; eauto).
  assert (He : CodeExecutor.execute_code (Executor.code_executor engine) code (py "shell") h s
               = (Ret (new false [] (Some (py "Unsafe command detected"))), s)).
  { unfold CodeExecutor.execute_code. rewrite lower_shell, supported_shell.
    unfold try_except, CodeExecutor._execute_shell. rewrite Hu. reflexivity. }
  split; [exact He|].
  eexists. unfold Executor.execute_code, bind. rewrite He.
  split; [reflexivity|]. split; reflexivity.
Qed.

Lemma shell_unsafe_token_rejected_witness :
  CodeExecutor.execute_code sample_executor (py "ls; rm -rf /") (py "shell")
      (sample_host (exits_with 0 0 [] [])) (sample_sys [])
    = (Ret (new false [] (Some (py "Unsafe command detected"))), sample_sys []).
Proof.
  apply (shell_unsafe_token_rejected sample_engine (py "ls; rm -rf /") (py "rm")).
  - vm_compute. do 1 right. left.
  - apply (bool_decide_unpack _). vm_compute. reflexivity.
Defined.

(** C10: a shell command text whose tokenisation is empty passes the
    allow-list check: the request is not rejected, one shell child is
    spawned with the raw text, and the result is the one of that child. *)
Theorem shell_empty_tokenisation_spawns (self : CodeExecutor.t) (code : pystr) (h : Host) (s : Sys) :
  split code = [] →
  let r := CodeExecutor.execute_code self code (py "shell") h s in
  let sp := mkSpawn (Shell code) (CodeExecutor.preexec_fn h) in
  CodeExecutor.unsafe code = false
  ∧ spawned r.2 = spawned s ++ [sp]
  ∧ ∀ eff t rc out text,
      spawn_outcome h s sp = inr (mkBehaviour (Exits t rc out []) eff) →
      utf8_decode out = Some text →
      r.1 = Ret (new (rc =? 0)%Z text None).
Proof.
  intros Hnil r sp.
  assert (Hu : CodeExecutor.unsafe code = false).
  { unfold CodeExecutor.unsafe. by rewrite Hnil. }
  subst r. unfold CodeExecutor.execute_code. rewrite lower_shell, supported_shell.
  unfold try_except, CodeExecutor._execute_shell. rewrite Hu.
  unfold bind, get_host, create_subprocess. fold sp.
  split; [done|]. split.
  - unfold communicate, CodeExecutor.exit_result, bind, decode, ret, raise, logger_error, set_fs.
    destruct (spawn_outcome h s sp) as [e|b]; [destruct (is_Exception e); reflexivity|].
    cbn [behaviour]. destruct (run b) as [t rc out err|]; [|reflexivity].
    destruct (utf8_decode out); [|destruct (is_Exception _); reflexivity].
    destruct err as [|b0 err]; [reflexivity|].
    destruct (utf8_decode (b0 :: err)); [reflexivity|].
    destruct (is_Exception _); reflexivity.
  - intros eff t rc out text Hsp Hdec. rewrite Hsp. simpl.
    unfold CodeExecutor.exit_result, bind, decode. rewrite Hdec. reflexivity.
Qed.

Lemma shell_empty_tokenisation_spawns_witness :
  spawned (CodeExecutor.execute_code sample_executor (py "  ") (py "shell")
             (sample_host (exits_with 0 0 [] [])) (sample_sys [])).2
    = [mkSpawn (Shell (py "  ")) (Some CodeExecutor._apply_limits)].
Proof.
  apply (shell_empty_tokenisation_spawns sample_executor (py "  ")
           (sample_host (exits_with 0 0 [] [])) (sample_sys [])).
  vm_compute. reflexivity.
Defined.

(** ** The dependency installer *)

Lemma package_managers_lookup k :
  DependencyManager.package_managers DependencyManager.init !! k =
    if decide (k = py "javascript") then Some (py "npm", py "install")
    else if decide (k = py "python") then Some (py "pip", py "install")
    else None.
Proof.
  unfold DependencyManager.init. simpl.
  repeat case_decide; subst; simplify_map_eq; done.
Qed.

(** C8: with an empty package list the installer answers success=true for
    every language, reports no installed package (the result has no
    [installed] entry, which the dispatcher reads as the empty list) and
    leaves the host as it was: no process is spawned. *)
Theorem install_nothing (engine : Executor.t) (language : pystr) (h : Host) (s : Sys) :
  ∃ d, Executor.install_dependencies engine [] language h s = (Ret d, s)
       ∧ d !! py "success" = Some (VBool true)
       ∧ d !! py "installed" = None
       ∧ dict_get d (py "installed") (VList []) = VList [].
Proof.
  eexists. split; [reflexivity|]. repeat split; reflexivity.
Qed.

(** C9 fails as stated: for a language without a package manager the
    result has no [error] entry at all. *)
Lemma install_unknown_language_no_error_field :
  ∃ d, Executor.install_dependencies sample_engine [py "rails"] (py "ruby")
         (sample_host (exits_with 0 0 [] [])) (sample_sys []) = (Ret d, sample_sys [])
       ∧ d !! py "success" = Some (VBool false)
       ∧ d !! py "error" = None
       ∧ dict_get d (py "error") VNone = VNone.
Proof.
  eexists. split; [reflexivity|]. repeat split; reflexivity.
Qed.

(** C9, amended: for a non-empty package list and a language other than
    the two with a package manager, the installer returns (it does not
    raise) a result with success=false whose [output] entry carries the
    message "Unsupported language: <language>"; the result has neither an
    [error] nor an [installed] entry (read as no installed package), and
    the host is left as it was: no process is spawned. *)
Theorem install_unknown_language (engine : Executor.t) (packages : list pystr)
    (language : pystr) (h : Host) (s : Sys) :
  Executor.dependency_manager engine = DependencyManager.init →
  packages ≠ [] →
  language ≠ py "python" →
  language ≠ py "javascript" →
  ∃ d, Executor.install_dependencies engine packages language h s = (Ret d, s)
       ∧ d !! py "success" = Some (VBool false)
       ∧ d !! py "output" = Some (VStr (py "Unsupported language: " ++ language))
       ∧ d !! py "error" = None
       ∧ dict_get d (py "installed") (VList []) = VList [].
Proof.
  intros Hdm Hne Hpy Hjs.
  unfold Executor.install_dependencies, DependencyManager.install_dependencies.
  rewrite Hdm, package_managers_lookup.
  destruct packages as [|p ps]; [done|].
  rewrite !decide_False by done.
  eexists. split; [reflexivity|]. repeat split; reflexivity.
Qed.

Lemma install_unknown_language_witness :
  ∃ d, Executor.install_dependencies sample_engine [py "rails"] (py "ruby")
         host_without_runtime (sample_sys []) = (Ret d, sample_sys [])
       ∧ d !! py "success" = Some (VBool false)
       ∧ d !! py "output" = Some (VStr (py "Unsupported language: ruby"))
       ∧ d !! py "error" = None
       ∧ dict_get d (py "installed") (VList []) = VList [].
Proof.
  apply (install_unknown_language sample_engine [py "rails"] (py "ruby")
           host_without_runtime (sample_sys [])).
  - reflexivity.
  - discriminate.
  - vm_compute. discriminate.
  - vm_compute. discriminate.
Defined.

(** ** What a call can raise *)

Section Raises.
Context {A B : Type}.

Lemma roe_ret (a : A) : raises_only_exceptions (ret a).
Proof. intros h s e s' _ H. discriminate H. Qed.

Lemma roe_raise (e : Exn) : is_Exception e = true → raises_only_exceptions (@raise A e).
Proof. intros He h s e' s' _ H. unfold raise in H. by simplify_eq. Qed.

Lemma roe_bind (m : M A) (k : A → M B) :
  raises_only_exceptions m → (∀ a, raises_only_exceptions (k a)) →
  raises_only_exceptions (bind m k).
Proof.
  unfold raises_only_exceptions. intros Hm Hk h s e s' Hh H. unfold bind in H.
  destruct (m h s) as [[a|e0|] s0] eqn:E; simplify_eq; eauto.
Qed.

Lemma roe_try_except (m : M A) (handler : Exn → M A) :
  raises_only_exceptions m →
  (∀ e, is_Exception e = true → raises_only_exceptions (handler e)) →
  raises_only_exceptions (try_except m handler).
Proof.
  unfold raises_only_exceptions. intros Hm Hk h s e s' Hh H. unfold try_except in H.
  destruct (m h s) as [[a|e0|] s0] eqn:E; simplify_eq.
  eapply Hk; eauto.
Qed.

Lemma roe_try_finally (m : M A) (fin : M unit) :
  raises_only_exceptions m → raises_only_exceptions fin →
  raises_only_exceptions (try_finally m fin).
Proof.
  unfold raises_only_exceptions. intros Hm Hf h s e s' Hh H. unfold try_finally in H.
  destruct (m h s) as [[a|e0|] s0] eqn:E; simplify_eq;
    destruct (fin h s0) as [[[]|e1|] s1] eqn:F; simplify_eq; eauto.
Qed.

Lemma roe_attempt (m : M A) : raises_only_exceptions (attempt m).
Proof.
  intros h s e s' _ H. unfold attempt in H.
  destruct (m h s) as [[a|e0|] s0]; simplify_eq.
Qed.

Lemma roe_bind_attempt (m : M A) (k : A + Exn → M B) :
  raises_only_exceptions m →
  (∀ a, raises_only_exceptions (k (inl a))) →
  (∀ e, is_Exception e = true → raises_only_exceptions (k (inr e))) →
  raises_only_exceptions (bind (attempt m) k).
Proof.
  unfold raises_only_exceptions. intros Hm Hl Hr h s e s' Hh H.
  unfold bind, attempt in H.
  destruct (m h s) as [[a|e0|] s0] eqn:E; simplify_eq; eauto.
Qed.
End Raises.

Lemma roe_get_host : raises_only_exceptions get_host.
Proof. intros h s e s' _ H. discriminate H. Qed.

Lemma roe_path_exists p : raises_only_exceptions (path_exists p).
Proof. intros h s e s' _ H. discriminate H. Qed.

Lemma roe_write_text p text : raises_only_exceptions (write_text p text).
Proof.
  intros h s e s' [Hw _] H. unfold write_text in H.
  repeat case_match; simplify_eq; eauto.
Qed.

Lemma roe_unlink p : raises_only_exceptions (unlink p).
Proof. intros h s e s' _ H. unfold unlink in H. repeat case_match; by simplify_eq. Qed.

Lemma roe_create_subprocess sp : raises_only_exceptions (create_subprocess sp).
Proof.
  intros h s e s' [_ Hs] H. unfold create_subprocess in H.
  repeat case_match; simplify_eq; eauto.
Qed.

Lemma roe_communicate p : raises_only_exceptions (communicate p).
Proof. intros h s e s' _ H. unfold communicate in H. repeat case_match; simplify_eq. Qed.

Lemma roe_wait_for_communicate p t : raises_only_exceptions (wait_for_communicate p t).
Proof.
  intros h s e s' _ H. unfold wait_for_communicate in H. repeat case_match; by simplify_eq.
Qed.

Lemma roe_terminate p : raises_only_exceptions (terminate p).
Proof. intros h s e s' _ H. unfold terminate in H. repeat case_match; by simplify_eq. Qed.

Lemma roe_logger_error msg : raises_only_exceptions (logger_error msg).
Proof. intros h s e s' _ H. discriminate H. Qed.

Lemma roe_decode b : raises_only_exceptions (decode b).
Proof.
  unfold decode. destruct (utf8_decode b); [apply roe_ret | by apply roe_raise].
Qed.

Create HintDb py_safe.
#[local] Hint Resolve roe_ret roe_raise roe_attempt roe_get_host roe_path_exists
  roe_write_text roe_unlink roe_create_subprocess roe_communicate
  roe_wait_for_communicate roe_terminate roe_logger_error roe_decode : py_safe.

Ltac safe_step :=
  lazymatch goal with
  | |- raises_only_exceptions (bind (attempt _) _) =>
      apply roe_bind_attempt; [|intros ?|intros ? ?]
  | |- raises_only_exceptions (bind _ _) => apply roe_bind; [|intros ?]
  | |- raises_only_exceptions (try_except _ _) => apply roe_try_except; [|intros ? ?]
  | |- raises_only_exceptions (try_finally _ _) => apply roe_try_finally
  | |- raises_only_exceptions (match ?x with _ => _ end) => destruct x eqn:?
  | |- _ => solve [eauto with py_safe]
  end.

Ltac safe := repeat safe_step.

Lemma roe_exit_result rc out err : raises_only_exceptions (CodeExecutor.exit_result rc out err).
Proof. unfold CodeExecutor.exit_result. safe. Qed.

Lemma roe_remove_temp_file p : raises_only_exceptions (CodeExecutor.remove_temp_file p).
Proof. unfold CodeExecutor.remove_temp_file. safe. Qed.

#[local] Hint Resolve roe_exit_result roe_remove_temp_file : py_safe.

Lemma roe_execute_python self code :
  raises_only_exceptions (CodeExecutor._execute_python self code).
Proof. unfold CodeExecutor._execute_python. safe. Qed.

Lemma roe_execute_javascript self code :
  raises_only_exceptions (CodeExecutor._execute_javascript self code).
Proof. unfold CodeExecutor._execute_javascript. safe. Qed.

Lemma roe_execute_shell self code :
  raises_only_exceptions (CodeExecutor._execute_shell self code).
Proof. unfold CodeExecutor._execute_shell. safe. Qed.

(** ** Dispatch on the language *)

Lemma execute_code_never_raises self code language h s e :
  expected_faults h →
  (CodeExecutor.execute_code self code language h s).1 ≠ Raise e.
Proof.
  intros Hh. unfold CodeExecutor.execute_code. rewrite supported_lookup.
  assert (Hgen : ∀ runner : pystr → M ExecutionResult.t,
             raises_only_exceptions (runner code) →
             (try_except (runner code)
                (fun e0 => if is_Exception e0
                           then do_ logger_error (py "Execution error: " ++ str_exn e0);
                                ret (new false [] (Some (str_exn e0)))
                           else raise e0) h s).1 ≠ Raise e).
  { intros runner Hr. unfold try_except.
    destruct (runner code h s) as [[r|e0|] s0] eqn:E; simpl; try done.
    rewrite (Hr h s e0 s0 Hh E). done. }
  repeat case_decide.
  - apply Hgen, roe_execute_shell.
  - apply Hgen, roe_execute_javascript.
  - apply Hgen, roe_execute_python.
  - done.
Qed.

(** C4: a language whose lower-cased name is none of the three supported
    ones is rejected with success=false and the error "Unsupported
    language: <language>", the host being left as it was (no process is
    spawned); and for every language, on a host whose faults are the
    expected ones, neither the executor nor the facade raises. *)
Theorem unsupported_language_rejected (engine : Executor.t) (code language : pystr)
    (h : Host) (s : Sys) :
  (lower language ∉ [py "python"; py "javascript"; py "shell"] →
     CodeExecutor.execute_code (Executor.code_executor engine) code language h s
       = (Ret (new false [] (Some (py "Unsupported language: " ++ language))), s))
  ∧ (expected_faults h →
     ∀ e, (CodeExecutor.execute_code (Executor.code_executor engine) code language h s).1 ≠ Raise e
          ∧ (Executor.execute_code engine code language h s).1 ≠ Raise e).
Proof.
  split.
  - intros Hout. unfold CodeExecutor.execute_code. rewrite supported_lookup.
    rewrite !decide_False; [done|..]; intros Heq; apply Hout; rewrite Heq; set_solver.
  - intros Hh e.
    pose proof (execute_code_never_raises (Executor.code_executor engine) code language h s e Hh) as Hce.
    split; [exact Hce|].
    unfold Executor.execute_code, bind.
    destruct (CodeExecutor.execute_code (Executor.code_executor engine) code language h s)
      as [[r|e0|] s0]; simpl in *; congruence.
Qed.

Lemma sample_host_expected_faults b : expected_faults (sample_host b).
Proof. split; intros; discriminate. Defined.

Lemma unsupported_language_rejected_witness :
  CodeExecutor.execute_code sample_executor (py "puts 1") (py "Ruby")
      (sample_host (exits_with 0 0 [] [])) (sample_sys [])
    = (Ret (new false [] (Some (py "Unsupported language: Ruby"))), sample_sys [])
  ∧ (Executor.execute_code sample_engine (py "puts 1") (py "Ruby")
       (sample_host (exits_with 0 0 [] [])) (sample_sys [])).1
      ≠ Raise (mkExn OSError []).
Proof.
  destruct (unsupported_language_rejected sample_engine (py "puts 1") (py "Ruby")
              (sample_host (exits_with 0 0 [] [])) (sample_sys [])) as [Hrej Hnor].
  split.
  - apply Hrej. apply (bool_decide_unpack _). vm_compute. reflexivity.
  - apply Hnor. apply sample_host_expected_faults.
Defined.

(** ** The temporary source file *)


Section ComesBack.
Context {A B : Type}.

Lemma cb_ret (a : A) : comes_back (ret a).
Proof. by intros h s. Qed.

Lemma cb_raise (e : Exn) : comes_back (@raise A e).
Proof. by intros h s. Qed.

Lemma cb_bind (m : M A) (k : A → M B) :
  comes_back m → (∀ a, comes_back (k a)) → comes_back (bind m k).
Proof.
  intros Hm Hk h s. unfold bind. specialize (Hm h s).
  destruct (m h s) as [[a|e|] s0]; [apply Hk|done|done].
Qed.

Lemma cb_try_except (m : M A) (handler : Exn → M A) :
  comes_back m → (∀ e, comes_back (handler e)) → comes_back (try_except m handler).
Proof.
  intros Hm Hk h s. unfold try_except. specialize (Hm h s).
  destruct (m h s) as [[a|e|] s0]; [done|apply Hk|done].
Qed.

Lemma cb_try_finally (m : M A) (fin : M unit) :
  comes_back m → comes_back fin → comes_back (try_finally m fin).
Proof.
  intros Hm Hfin h s. unfold try_finally. specialize (Hm h s).
  destruct (m h s) as [[a|e|] s0]; [| |done];
    specialize (Hfin h s0); destruct (fin h s0) as [[[]|e1|] s1]; done.
Qed.

Lemma cb_attempt (m : M A) : comes_back m → comes_back (attempt m).
Proof.
  intros Hm h s. unfold attempt. specialize (Hm h s).
  destruct (m h s) as [[a|e|] s0]; done.
Qed.
End ComesBack.

Lemma cb_get_host : comes_back get_host.
Proof. by intros h s. Qed.

Lemma cb_path_exists p : comes_back (path_exists p).
Proof. by intros h s. Qed.

Lemma cb_write_text p text : comes_back (write_text p text).
Proof. intros h s. unfold write_text. by repeat case_match. Qed.

Lemma cb_unlink p : comes_back (unlink p).
Proof. intros h s. unfold unlink. by repeat case_match. Qed.

Lemma cb_create_subprocess sp : comes_back (create_subprocess sp).
Proof. intros h s. unfold create_subprocess. by repeat case_match. Qed.

Lemma cb_wait_for_communicate p t : comes_back (wait_for_communicate p t).
Proof. intros h s. unfold wait_for_communicate. by repeat case_match. Qed.

Lemma cb_terminate p : comes_back (terminate p).
Proof. intros h s. unfold terminate. by repeat case_match. Qed.

Lemma cb_decode b : comes_back (decode b).
Proof. unfold decode. destruct (utf8_decode b); [apply cb_ret | apply cb_raise]. Qed.

Create HintDb py_back.
#[local] Hint Resolve cb_ret cb_raise cb_get_host cb_path_exists cb_write_text cb_unlink
  cb_create_subprocess cb_wait_for_communicate cb_terminate cb_decode : py_back.

Ltac back_step :=
  lazymatch goal with
  | |- comes_back (bind _ _) => apply cb_bind; [|intros ?]
  | |- comes_back (try_except _ _) => apply cb_try_except; [|intros ?]
  | |- comes_back (try_finally _ _) => apply cb_try_finally
  | |- comes_back (attempt _) => apply cb_attempt
  | |- comes_back (match ?x with _ => _ end) => destruct x eqn:?
  | |- _ => solve [eauto with py_back]
  end.

Ltac back := repeat back_step.

Lemma cb_exit_result rc out err : comes_back (CodeExecutor.exit_result rc out err).
Proof. unfold CodeExecutor.exit_result. back. Qed.

Lemma cb_remove_temp_file p : comes_back (CodeExecutor.remove_temp_file p).
Proof. unfold CodeExecutor.remove_temp_file. back. Qed.

#[local] Hint Resolve cb_exit_result cb_remove_temp_file : py_back.

(** After the [finally] clause no file is left under the path. *)
Lemma remove_temp_file_removes p h s :
  is_file (fs (CodeExecutor.remove_temp_file p h s).2) p = false.
Proof.
  unfold CodeExecutor.remove_temp_file, bind, path_exists, unlink, ret.
  destruct (is_file (fs s) p) eqn:Hf.
  - cbn [orb]. rewrite Hf. unfold is_file, set_fs. cbn [fst snd fs files].
    rewrite lookup_delete_eq.
    apply bool_decide_eq_false. by intros [? ?].
  - destruct (is_dir (fs s) p) eqn:Hd; cbn [orb]; rewrite ?Hf, ?Hd; cbn [fst snd]; exact Hf.
Qed.




(** ** What the runners return *)

Section ReturnsWith.
Context {A B : Type} (h : Host).

Lemma rw_ret (a : A) (Q : A → Prop) : Q a → returns_with h (ret a) Q.
Proof. intros Ha s a' s' H. unfold ret in H. by simplify_eq. Qed.

Lemma rw_raise (e : Exn) (Q : A → Prop) : returns_with h (raise e) Q.
Proof. intros s a' s' H. discriminate H. Qed.

Lemma rw_bind (m : M A) (k : A → M B) (Q1 : A → Prop) (Q2 : B → Prop) :
  returns_with h m Q1 → (∀ a, Q1 a → returns_with h (k a) Q2) →
  returns_with h (bind m k) Q2.
Proof.
  unfold returns_with. intros Hm Hk s b s' H. unfold bind in H.
  destruct (m h s) as [[a|e|] s0] eqn:E; simplify_eq. eauto.
Qed.

Lemma rw_try_except (m : M A) (handler : Exn → M A) (Q : A → Prop) :
  returns_with h m Q → (∀ e, returns_with h (handler e) Q) →
  returns_with h (try_except m handler) Q.
Proof.
  unfold returns_with. intros Hm Hk s a s' H. unfold try_except in H.
  destruct (m h s) as [[a0|e|] s0] eqn:E; simplify_eq; eauto.
Qed.

Lemma rw_try_finally (m : M A) (fin : M unit) (Q : A → Prop) :
  returns_with h m Q → returns_with h (try_finally m fin) Q.
Proof.
  unfold returns_with. intros Hm s a s' H. unfold try_finally in H.
  destruct (m h s) as [[a0|e|] s0] eqn:E; simplify_eq;
    destruct (fin h s0) as [[[]|e1|] s1]; simplify_eq; eauto.
Qed.

Lemma rw_attempt (m : M A) (Q : A → Prop) :
  returns_with h m Q →
  returns_with h (attempt m) (fun r => match r with inl a => Q a | inr _ => True end).
Proof.
  unfold returns_with. intros Hm s a s' H. unfold attempt in H.
  destruct (m h s) as [[a0|e|] s0] eqn:E; simplify_eq; eauto.
Qed.
End ReturnsWith.

Lemma rw_get_host h : returns_with h get_host (fun h' => h' = h).
Proof. intros s a s' H. unfold get_host in H. by simplify_eq. Qed.

Lemma rw_create_subprocess h sp :
  returns_with h (create_subprocess sp)
    (fun p => ∃ s0, spawn_outcome h s0 sp = inr (behaviour p)).
Proof.
  intros s p s' H. unfold create_subprocess in H.
  destruct (spawn_outcome h s sp) eqn:E; simplify_eq. eauto.
Qed.

Lemma rw_communicate h p :
  returns_with h (communicate p)
    (fun x => ∃ t, run (behaviour p) = Exits t x.1.1 x.1.2 x.2).
Proof.
  intros s x s' H. unfold communicate in H.
  destruct (run (behaviour p)) eqn:E; simplify_eq. eauto.
Qed.

Lemma rw_wait_for_communicate h p timeout :
  returns_with h (wait_for_communicate p timeout)
    (fun x => ∃ t, run (behaviour p) = Exits t x.1.1 x.1.2 x.2).
Proof.
  intros s x s' H. unfold wait_for_communicate in H.
  destruct (run (behaviour p)) eqn:E; [|discriminate H].
  destruct (_ <? _); simplify_eq. eauto.
Qed.

Lemma rw_decode h b : returns_with h (decode b) (fun text => utf8_decode b = Some text).
Proof.
  intros s text s' H. unfold decode in H.
  destruct (utf8_decode b); [|discriminate H]. unfold ret in H. by simplify_eq.
Qed.

Lemma rw_exit_result h rc out err :
  returns_with h (CodeExecutor.exit_result rc out err)
    (fun r => success r = (rc =? 0)%Z ∧ utf8_decode out = Some (output r)
              ∧ (err = [] ∧ error r = None
                 ∨ err ≠ [] ∧ ∃ text, utf8_decode err = Some text ∧ error r = Some text)).
Proof.
  unfold CodeExecutor.exit_result.
  eapply rw_bind; [apply rw_decode|]. intros text Hout. simpl in Hout.
  destruct err as [|b0 err].
  - eapply rw_bind; [by apply (rw_ret h None (fun o => o = None))|].
    intros o ->. apply rw_ret. simpl. auto.
  - apply (rw_bind h _ _ (fun o => ∃ e', utf8_decode (b0 :: err) = Some e' ∧ o = Some e')).
    + eapply rw_bind; [apply rw_decode|]. intros e He.
      apply rw_ret. simpl in He. eauto.
    + intros o (e' & He' & ->). apply rw_ret. simpl.
      split; [done|]. split; [done|]. right. split; [done|]. eauto.
Qed.

(** ** What the runners spawn *)

Section SpawnsOnly.
Context {A B : Type} (h : Host) (P : Spawn → Prop).

Lemma so_keeps (m : M A) : (∀ s, spawned (m h s).2 = spawned s) → spawns_only h m P.
Proof. intros Hm s sp. rewrite Hm. auto. Qed.

Lemma so_bind (m : M A) (k : A → M B) :
  spawns_only h m P → (∀ a, spawns_only h (k a) P) → spawns_only h (bind m k) P.
Proof.
  intros Hm Hk s sp. unfold bind. specialize (Hm s sp).
  destruct (m h s) as [[a|e|] s0]; [|exact Hm..].
  intros [Hin|Hin]%Hk; auto.
Qed.

Lemma so_try_except (m : M A) (handler : Exn → M A) :
  spawns_only h m P → (∀ e, spawns_only h (handler e) P) →
  spawns_only h (try_except m handler) P.
Proof.
  intros Hm Hk s sp. unfold try_except. specialize (Hm s sp).
  destruct (m h s) as [[a|e|] s0]; [exact Hm| |exact Hm].
  intros [Hin|Hin]%Hk; auto.
Qed.

Lemma so_try_finally (m : M A) (fin : M unit) :
  spawns_only h m P → spawns_only h fin P → spawns_only h (try_finally m fin) P.
Proof.
  intros Hm Hf s sp. unfold try_finally. specialize (Hm s sp).
  destruct (m h s) as [[a|e|] s0]; [| |exact Hm];
    specialize (Hf s0 sp); destruct (fin h s0) as [[[]|e1|] s1];
    intros [Hin|Hin]%Hf; auto.
Qed.

Lemma so_attempt (m : M A) : spawns_only h m P → spawns_only h (attempt m) P.
Proof.
  intros Hm s sp. unfold attempt. specialize (Hm s sp).
  destruct (m h s) as [[a|e|] s0]; exact Hm.
Qed.
End SpawnsOnly.

Lemma so_ret {A} h P (a : A) : spawns_only h (ret a) P.
Proof. by apply so_keeps. Qed.

Lemma so_raise {A} h P e : spawns_only h (@raise A e) P.
Proof. by apply so_keeps. Qed.

Lemma so_get_host h P : spawns_only h get_host P.
Proof. by apply so_keeps. Qed.

Lemma so_path_exists h P p : spawns_only h (path_exists p) P.
Proof. by apply so_keeps. Qed.

Lemma so_write_text h P p text : spawns_only h (write_text p text) P.
Proof. apply so_keeps. intros s. unfold write_text. by repeat case_match. Qed.

Lemma so_unlink h P p : spawns_only h (unlink p) P.
Proof. apply so_keeps. intros s. unfold unlink. by repeat case_match. Qed.

Lemma so_communicate h P p : spawns_only h (communicate p) P.
Proof. apply so_keeps. intros s. unfold communicate. by repeat case_match. Qed.

Lemma so_wait_for_communicate h P p t : spawns_only h (wait_for_communicate p t) P.
Proof. apply so_keeps. intros s. unfold wait_for_communicate. by repeat case_match. Qed.

Lemma so_terminate h P p : spawns_only h (terminate p) P.
Proof. apply so_keeps. intros s. unfold terminate. by repeat case_match. Qed.

Lemma so_logger_error h P msg : spawns_only h (logger_error msg) P.
Proof. by apply so_keeps. Qed.

Lemma so_decode h P b : spawns_only h (decode b) P.
Proof. unfold decode. destruct (utf8_decode b); [apply so_ret | apply so_raise]. Qed.

Lemma so_create_subprocess h (P : Spawn → Prop) sp : P sp → spawns_only h (create_subprocess sp) P.
Proof.
  intros HP s sp'. unfold create_subprocess.
  destruct (spawn_outcome h s sp); cbn [snd spawned];
    (intros [Hin| ->%list_elem_of_singleton]%elem_of_app; auto).
Qed.

Create HintDb py_spawn.
#[local] Hint Resolve so_ret so_raise so_get_host so_path_exists so_write_text so_unlink
  so_communicate so_wait_for_communicate so_terminate so_logger_error so_decode : py_spawn.

Ltac spawn_step :=
  lazymatch goal with
  | |- spawns_only _ (bind _ _) _ => apply so_bind; [|intros ?]
  | |- spawns_only _ (try_except _ _) _ => apply so_try_except; [|intros ?]
  | |- spawns_only _ (try_finally _ _) _ => apply so_try_finally
  | |- spawns_only _ (attempt _) _ => apply so_attempt
  | |- spawns_only _ (create_subprocess _) _ => apply so_create_subprocess
  | |- spawns_only _ (match ?x with _ => _ end) _ => destruct x eqn:?
  | |- _ => solve [eauto with py_spawn]
  end.

Lemma so_exit_result h P rc out err : spawns_only h (CodeExecutor.exit_result rc out err) P.
Proof. unfold CodeExecutor.exit_result. repeat spawn_step. Qed.

Lemma so_remove_temp_file h P p : spawns_only h (CodeExecutor.remove_temp_file p) P.
Proof. unfold CodeExecutor.remove_temp_file. repeat spawn_step. Qed.

#[local] Hint Resolve so_exit_result so_remove_temp_file : py_spawn.

Lemma so_bind_with {A B} h (P : Spawn → Prop) (Q : A → Prop) (m : M A) (k : A → M B) :
  returns_with h m Q → spawns_only h m P → (∀ a, Q a → spawns_only h (k a) P) →
  spawns_only h (bind m k) P.
Proof.
  intros Hq Hm Hk s sp. unfold bind. specialize (Hm s sp). specialize (Hq s).
  destruct (m h s) as [[a|e|] s0]; [|exact Hm..].
  intros [Hin|Hin]%(Hk a (Hq a s0 eq_refl)); auto.
Qed.

(** The Python runner starts nothing but the interpreter on its
    [temp_file]. *)
Lemma so_execute_python h self code :
  spawns_only h (CodeExecutor._execute_python self code)
    (fun sp => command sp = Exec [sys_executable h; CodeExecutor.python_temp_file self]).
Proof.
  unfold CodeExecutor._execute_python.
  apply so_try_finally; [|apply so_remove_temp_file].
  eapply so_bind_with; [apply rw_get_host|apply so_get_host|]. intros ? ->.
  repeat spawn_step.
Qed.

(** The JavaScript runner starts nothing but [node] on its [temp_file]. *)
Lemma so_execute_javascript h self code :
  spawns_only h (CodeExecutor._execute_javascript self code)
    (fun sp => command sp = Exec [py "node"; CodeExecutor.javascript_temp_file self]).
Proof.
  unfold CodeExecutor._execute_javascript. repeat spawn_step.
Qed.

(** ** Paths of the temporary files *)

Lemma last_nonempty {A} (l : list A) : l ≠ [] → is_Some (last l).
Proof.
  induction l as [|x l IH]; [done|]. intros _. rewrite last_cons.
  destruct (last l); eauto.
Qed.

Lemma join_parts_last parts a :
  a ≠ [] → last (join_parts (parts ++ [a])) = last a.
Proof.
  intros Ha. destruct (last_nonempty a Ha) as [c Hc].
  induction parts as [|p parts IH]; [done|].
  change ((p :: parts) ++ [a]) with (p :: (parts ++ [a])).
  destruct (parts ++ [a]) as [|q rest] eqn:E.
  { exfalso. destruct parts; discriminate E. }
  change (join_parts (p :: q :: rest)) with (p ++ slash :: join_parts (q :: rest)).
  rewrite last_app, last_cons, IH, Hc. done.
Qed.

Lemma path_join_last d name a :
  path_parts name = [a] → a ≠ [] → last (path_join d name) = last a.
Proof.
  intros Hn Ha. destruct (last_nonempty a Ha) as [c Hc].
  unfold path_join, path_str. rewrite Hn.
  assert (Hl : last (path_root d ++ join_parts (path_parts d ++ [a])) = last a).
  { rewrite last_app, join_parts_last, Hc by done. done. }
  destruct (path_root d); [|exact Hl].
  destruct (path_parts d ++ [a]) eqn:E; [|exact Hl].
  exfalso. destruct (path_parts d); discriminate E.
Qed.

Lemma temp_files_differ self :
  CodeExecutor.python_temp_file self ≠ CodeExecutor.javascript_temp_file self.
Proof.
  unfold CodeExecutor.python_temp_file, CodeExecutor.javascript_temp_file. intros Heq.
  apply (f_equal last) in Heq.
  rewrite (path_join_last _ _ (py "script.py")) in Heq by done.
  rewrite (path_join_last _ _ (py "script.js")) in Heq by done.
  discriminate Heq.
Qed.

(** C1 fails as stated: two invocations with different sources on one
    engine hand the interpreter the same path, and when both have written
    their source before either child reads it, the file under that path
    holds the source of the second. *)
Lemma invocations_share_temp_file :
  let h := sample_host (exits_with 0 0 [] []) in
  let first := CodeExecutor._execute_python sample_executor (py "print(1)") h (sample_sys []) in
  let second := CodeExecutor._execute_python sample_executor (py "print(2)") h (sample_sys []) in
  let both_written :=
    (do_ write_text (CodeExecutor.python_temp_file sample_executor) (py "print(1)");
     write_text (CodeExecutor.python_temp_file sample_executor) (py "print(2)"))
      h (sample_sys []) in
  py "print(1)" ≠ py "print(2)"
  ∧ command <$> spawned first.2 = [Exec [py "/usr/bin/python3"; py "/ws/script.py"]]
  ∧ command <$> spawned second.2 = [Exec [py "/usr/bin/python3"; py "/ws/script.py"]]
  ∧ files (fs both_written.2) !! py "/ws/script.py" = Some (py "print(2)").
Proof.
  split; [discriminate|]. vm_compute. repeat split; reflexivity.
Qed.

(** C1, amended: the path of the source file of an invocation is the fixed
    name script.py (Python) or script.js (JavaScript) inside the workspace
    directory of the engine.  It depends on the engine and the language
    only, not on the invocation; the two languages never share a path; and
    the only process a runner starts is its interpreter on that path. *)
Theorem temp_file_fixed_per_language (self : CodeExecutor.t) (code : pystr) (h : Host) (s : Sys) :
  CodeExecutor.python_temp_file self
    = path_join (CodeExecutor.workspace_dir self) (py "script.py")
  ∧ CodeExecutor.javascript_temp_file self
    = path_join (CodeExecutor.workspace_dir self) (py "script.js")
  ∧ CodeExecutor.python_temp_file self ≠ CodeExecutor.javascript_temp_file self
  ∧ (∀ sp, sp ∈ spawned (CodeExecutor._execute_python self code h s).2 →
       sp ∈ spawned s
       ∨ command sp = Exec [sys_executable h; CodeExecutor.python_temp_file self])
  ∧ (∀ sp, sp ∈ spawned (CodeExecutor._execute_javascript self code h s).2 →
       sp ∈ spawned s
       ∨ command sp = Exec [py "node"; CodeExecutor.javascript_temp_file self]).
Proof.
  split; [reflexivity|]. split; [reflexivity|]. split; [apply temp_files_differ|].
  split; intros sp Hsp.
  - by apply so_execute_python in Hsp.
  - by apply so_execute_javascript in Hsp.
Qed.

Lemma temp_file_fixed_per_language_witness :
  command (mkSpawn (Exec [py "node"; py "/ws/script.js"]) (Some CodeExecutor._apply_limits))
    = Exec [py "node"; CodeExecutor.javascript_temp_file sample_executor].
Proof.
  destruct (temp_file_fixed_per_language sample_executor (py "console.log(2)")
              (sample_host (exits_with 0 0 [] [])) (sample_sys []))
    as (_ & _ & _ & _ & Hjs).
  destruct (Hjs (mkSpawn (Exec [py "node"; py "/ws/script.js"]) (Some CodeExecutor._apply_limits)))
    as [Hold|Hnew].
  - vm_compute. left.
  - vm_compute in Hold. inversion Hold.
  - exact Hnew.
Defined.

(** ** Deadlines *)







(** C3 fails on the JavaScript runner, which waits without a deadline: a
    child that exits after 100 seconds is waited for and reported as a
    success, nothing is terminated, and a child that never exits leaves
    the call waiting for ever; the Python runner on the same host reports
    "Execution timeout" and terminates the child. *)
Theorem javascript_runner_has_no_deadline :
  let slow := sample_host (exits_with 100 0 [] []) in
  let stuck := sample_host (mkBehaviour Runs_forever id) in
  let js := CodeExecutor.execute_code sample_executor (py "setTimeout(() => {}, 100000)")
              (py "javascript") in
  let python := CodeExecutor.execute_code sample_executor (py "import time; time.sleep(100)")
                  (py "python") in
  (ResourceLimits.MAX_TIME < 100)%N
  ∧ (js slow (sample_sys [])).1 = Ret (new true [] None)
  ∧ terminated (js slow (sample_sys [])).2 = []
  ∧ (js stuck (sample_sys [])).1 = Hang
  ∧ (python slow (sample_sys [])).1 = Ret (new false [] (Some (py "Execution timeout")))
  ∧ terminated (python slow (sample_sys [])).2 = [0%nat]
  ∧ (python stuck (sample_sys [])).1 = Ret (new false [] (Some (py "Execution timeout"))).
Proof. vm_compute. repeat split; reflexivity. Qed.

(** ** Results *)


(** *** Reading an outcome backwards *)

Section Backwards.
Context {A B : Type}.





End Backwards.














(** *** The three runners, backwards *)




(** *** The three runners on a child that exits *)






(** ** Shutdown *)

(** [cleanup] returns, whatever the state: it raises nothing. *)
Lemma cleanup_returns engine h s : (Executor.cleanup engine h s).1 = Ret ().
Proof.
  unfold Executor.cleanup, bind, os_path_exists, rmtree_ignore_errors, ret.
  destruct (Executor.workspace_dir engine) as [|c d]; [reflexivity|].
  rewrite bool_decide_eq_true_2 by done.
  destruct (is_file _ _) eqn:Ef, (is_dir _ _) eqn:Ed; cbv beta iota delta [orb andb];
    rewrite ?Ed; reflexivity.
Qed.

(** C6 fails on an engine built without a workspace directory: the
    constructor creates two temporary directories, one for the code
    executor and one for the engine, and [cleanup], called twice without
    an error, removes the second only. *)
Theorem cleanup_leaves_executor_workspace :
  let h := sample_host (exits_with 0 0 [] []) in
  let r := (do engine <- Executor.init None;
            do_ Executor.cleanup engine;
            do_ Executor.cleanup engine;
            ret engine) h (sample_sys [py "k3x9"; py "q7wz"]) in
  ∃ engine, r.1 = Ret engine
    ∧ CodeExecutor.workspace_dir (Executor.code_executor engine) = py "/tmp/ai_agent_k3x9"
    ∧ Executor.workspace_dir engine = py "/tmp/ai_agent_q7wz"
    ∧ is_dir (fs r.2) (py "/tmp/ai_agent_q7wz") = false
    ∧ is_dir (fs r.2) (py "/tmp/ai_agent_k3x9") = true.
Proof. eexists. vm_compute. repeat split; reflexivity. Qed.

(** ** Sample evaluations *)

Example split_example :
  split (py "  echo   hello world ") = [py "echo"; py "hello"; py "world"].
Proof. reflexivity. Qed.

Example split_unicode_space : split [0x6C; 0x73; 0x3000; 0x2D; 0x6C] = [[0x6C; 0x73]; [0x2D; 0x6C]].
Proof. reflexivity. Qed.

Example lower_example : lower (py "JavaScript") = py "javascript".
Proof. reflexivity. Qed.

Example path_join_example : path_join (py "/tmp//ws/./") (py "script.py") = py "/tmp/ws/script.py".
Proof. reflexivity. Qed.

Example path_join_relative : path_join (py "./workspace") (py "script.js") = py "workspace/script.js".
Proof. reflexivity. Qed.

Example utf8_decode_example :
  utf8_decode [x68; xc3; xa9; xe2; x82; xac] = Some [0x68; 0xE9; 0x20AC].
Proof. reflexivity. Qed.

Example utf8_decode_invalid : utf8_decode [xff] = None.
Proof. reflexivity. Qed.

Example execute_python_hello :
  (Executor.execute_code sample_engine (py "print('hi')") (py "python")
     (sample_host (exits_with 0 0 [x68; x69; x0a] [])) (sample_sys [])).1
  = Ret (to_dict (new true (py "hi" ++ [10]) None)).
Proof. vm_compute. reflexivity. Qed.

Example execute_javascript_without_node :
  (CodeExecutor.execute_code sample_executor (py "1") (py "javascript")
     host_without_runtime (sample_sys [])).1
  = Ret (new false [] (Some (py "Node.js is not installed"))).
Proof. vm_compute. reflexivity. Qed.

(** * Further properties *)

(** ** The context window *)

Lemma take_window {A} (l : list A) (a p k : nat) :
  (a ≤ p)%nat → (p ≤ a + k)%nat →
  take k (drop a l) = drop a (take p l) ++ take (a + k - p) (drop p l).
Proof.
  intros Hap Hpk.
  replace k with ((p - a) + (a + k - p))%nat at 1 by lia.
  rewrite <- take_take_drop, drop_drop.
  replace (a + (p - a))%nat with p by lia.
  f_equal. replace p with (a + (p - a))%nat at 2 by lia.
  by rewrite take_drop_commute.
Qed.

(** X1: with a cursor that is not more than [window_size] before the start
    of the text, the context window holds at most [2 * window_size]
    characters. *)
Theorem context_window_bounded (code : pystr) (position window_size : Z) :
  (0 ≤ window_size)%Z →
  (0 ≤ position + window_size)%Z →
  (Z.of_nat (length (CodeAnalyzer.get_context_window code position window_size))
   ≤ 2 * window_size)%Z.
Proof.
  intros Hw Hp. unfold CodeAnalyzer.get_context_window, slice.
  rewrite length_take, length_drop.
  repeat case_match; lia.
Qed.

Lemma context_window_bounded_witness :
  (Z.of_nat (length (CodeAnalyzer.get_context_window (py "def f(): return 1") 4 3)) ≤ 2 * 3)%Z.
Proof.
  apply (context_window_bounded (py "def f(): return 1") 4 3); lia.
Defined.

(** X2: with the cursor inside the text, the context window is the last
    [window_size] characters before the cursor (fewer at the start of the
    text) followed by the first [window_size] characters from the cursor
    on (fewer at the end). *)
Theorem context_window_centred (code : pystr) (position window_size : Z) :
  (0 ≤ window_size)%Z →
  (0 ≤ position ≤ Z.of_nat (length code))%Z →
  CodeAnalyzer.get_context_window code position window_size
  = drop (Z.to_nat (position - window_size)) (take (Z.to_nat position) code)
    ++ take (Z.to_nat window_size) (drop (Z.to_nat position) code).
Proof.
  intros Hw Hp. unfold CodeAnalyzer.get_context_window, slice.
  set (n := Z.of_nat (length code)).
  rewrite !(proj2 (Z.ltb_ge _ _)) by lia.
  replace (Z.min (Z.max 0 (position - window_size)) n)
    with (Z.max 0 (position - window_size)) by lia.
  replace (Z.min (Z.min n (position + window_size)) n)
    with (Z.min n (position + window_size)) by lia.
  replace (Z.to_nat (position - window_size))
    with (Z.to_nat (Z.max 0 (position - window_size))) by lia.
  rewrite (take_window code _ (Z.to_nat position)) by lia.
  f_equal.
  destruct (Z.le_gt_cases (position + window_size) n) as [Hle|Hgt].
  - f_equal. lia.
  - rewrite !take_ge; [done|rewrite length_drop; lia..].
Qed.

Lemma context_window_centred_witness :
  CodeAnalyzer.get_context_window (py "def f(): return 1") 4 3 = py "ef f()".
Proof.
  rewrite (context_window_centred (py "def f(): return 1") 4 3).
  - reflexivity.
  - lia.
  - vm_compute. split; discriminate.
Defined.

(** X3: with a cursor more than [window_size] before the start of the
    text, the upper index of the slice is negative and counts from the end:
    the window is the text without its last [-(position + window_size)]
    characters, however long that is. *)
Theorem context_window_negative_cursor (code : pystr) (position window_size : Z) :
  (0 ≤ window_size)%Z →
  (position + window_size < 0)%Z →
  CodeAnalyzer.get_context_window code position window_size
  = take (Z.to_nat (Z.of_nat (length code) + (position + window_size))) code.
Proof.
  intros Hw Hp. unfold CodeAnalyzer.get_context_window, slice.
  set (n := Z.of_nat (length code)).
  replace (Z.max 0 (position - window_size)) with 0%Z by lia.
  replace (Z.min n (position + window_size)) with (position + window_size)%Z by lia.
  rewrite (proj2 (Z.ltb_lt _ _)) by lia. rewrite (proj2 (Z.ltb_ge _ _)) by lia.
  replace (Z.min 0 n) with 0%Z by lia. simpl drop.
  f_equal. lia.
Qed.

Lemma context_window_negative_cursor_witness :
  CodeAnalyzer.get_context_window (py "def f(): return 1") (-5) 3 = py "def f(): return".
Proof.
  rewrite (context_window_negative_cursor (py "def f(): return 1") (-5) 3); [reflexivity|lia|lia].
Defined.

(** ** How many processes a call spawns *)

Section KeepsSpawned.
Context {A B : Type}.

Lemma ks_ret (a : A) : keeps_spawned (ret a).
Proof. by intros h s. Qed.

Lemma ks_raise (e : Exn) : keeps_spawned (@raise A e).
Proof. by intros h s. Qed.

Lemma ks_bind (m : M A) (k : A → M B) :
  keeps_spawned m → (∀ a, keeps_spawned (k a)) → keeps_spawned (bind m k).
Proof.
  intros Hm Hk h s. unfold bind. specialize (Hm h s).
  destruct (m h s) as [[a|e|] s0]; [|exact Hm..].
  rewrite Hk. exact Hm.
Qed.

Lemma ks_try_except (m : M A) (handler : Exn → M A) :
  keeps_spawned m → (∀ e, keeps_spawned (handler e)) → keeps_spawned (try_except m handler).
Proof.
  intros Hm Hk h s. unfold try_except. specialize (Hm h s).
  destruct (m h s) as [[a|e|] s0]; [exact Hm| |exact Hm].
  rewrite Hk. exact Hm.
Qed.

Lemma ks_try_finally (m : M A) (fin : M unit) :
  keeps_spawned m → keeps_spawned fin → keeps_spawned (try_finally m fin).
Proof.
  intros Hm Hf h s. unfold try_finally. specialize (Hm h s).
  destruct (m h s) as [[a|e|] s0]; [| |exact Hm];
    specialize (Hf h s0); destruct (fin h s0) as [[[]|e1|] s1];
    cbn [snd] in *; congruence.
Qed.

Lemma ks_attempt (m : M A) : keeps_spawned m → keeps_spawned (attempt m).
Proof.
  intros Hm h s. unfold attempt. specialize (Hm h s).
  destruct (m h s) as [[a|e|] s0]; exact Hm.
Qed.
End KeepsSpawned.

Lemma ks_get_host : keeps_spawned get_host.
Proof. by intros h s. Qed.

Lemma ks_path_exists p : keeps_spawned (path_exists p).
Proof. by intros h s. Qed.

Lemma ks_write_text p text : keeps_spawned (write_text p text).
Proof. intros h s. unfold write_text. by repeat case_match. Qed.

Lemma ks_unlink p : keeps_spawned (unlink p).
Proof. intros h s. unfold unlink. by repeat case_match. Qed.

Lemma ks_communicate p : keeps_spawned (communicate p).
Proof. intros h s. unfold communicate. by repeat case_match. Qed.

Lemma ks_wait_for_communicate p t : keeps_spawned (wait_for_communicate p t).
Proof. intros h s. unfold wait_for_communicate. by repeat case_match. Qed.

Lemma ks_terminate p : keeps_spawned (terminate p).
Proof. intros h s. unfold terminate. by repeat case_match. Qed.

Lemma ks_logger_error msg : keeps_spawned (logger_error msg).
Proof. by intros h s. Qed.

Lemma ks_decode b : keeps_spawned (decode b).
Proof. unfold decode. destruct (utf8_decode b); [apply ks_ret | apply ks_raise]. Qed.

Lemma ks_rmtree d : keeps_spawned (rmtree_ignore_errors d).
Proof. intros h s. unfold rmtree_ignore_errors. by destruct (_ && is_dir _ _). Qed.

Create HintDb py_keeps.
#[local] Hint Resolve ks_ret ks_raise ks_get_host ks_path_exists ks_write_text ks_unlink
  ks_communicate ks_wait_for_communicate ks_terminate ks_logger_error ks_decode
  ks_rmtree : py_keeps.

Ltac keeps_step :=
  lazymatch goal with
  | |- keeps_spawned (bind _ _) => apply ks_bind; [|intros ?]
  | |- keeps_spawned (try_except _ _) => apply ks_try_except; [|intros ?]
  | |- keeps_spawned (try_finally _ _) => apply ks_try_finally
  | |- keeps_spawned (attempt _) => apply ks_attempt
  | |- keeps_spawned (match ?x with _ => _ end) => destruct x eqn:?
  | |- _ => solve [eauto with py_keeps]
  end.

Ltac keeps := repeat keeps_step.

Lemma ks_exit_result rc out err : keeps_spawned (CodeExecutor.exit_result rc out err).
Proof. unfold CodeExecutor.exit_result. keeps. Qed.

Lemma ks_remove_temp_file p : keeps_spawned (CodeExecutor.remove_temp_file p).
Proof. unfold CodeExecutor.remove_temp_file. keeps. Qed.

#[local] Hint Resolve ks_exit_result ks_remove_temp_file : py_keeps.

Section SpawnsAtMost.
Context {A B : Type} (h : Host) (P : Spawn → Prop).

Lemma sa_keeps n (m : M A) : keeps_spawned m → spawns_at_most h n m P.
Proof.
  intros Hm s. exists []. rewrite Hm, app_nil_r. repeat split; [simpl; lia|constructor].
Qed.

Lemma sa_create sp : P sp → spawns_at_most h 1 (create_subprocess sp) P.
Proof.
  intros HP s. exists [sp]. unfold create_subprocess.
  destruct (spawn_outcome h s sp); repeat split; auto.
Qed.

Lemma sa_bind_l n (Q : A → Prop) (m : M A) (k : A → M B) :
  returns_with h m Q → keeps_spawned m → (∀ a, Q a → spawns_at_most h n (k a) P) →
  spawns_at_most h n (bind m k) P.
Proof.
  intros Hq Hm Hk s. unfold bind. specialize (Hm h s). specialize (Hq s).
  destruct (m h s) as [[a|e|] s0]; cbn [snd] in *.
  - destruct (Hk a (Hq a s0 eq_refl) s0) as (l & Hl & Hn & HP).
    exists l. by rewrite Hl, Hm.
  - exists []. rewrite Hm, app_nil_r. repeat split; [simpl; lia|constructor].
  - exists []. rewrite Hm, app_nil_r. repeat split; [simpl; lia|constructor].
Qed.

Lemma sa_bind_r n (m : M A) (k : A → M B) :
  spawns_at_most h n m P → (∀ a, keeps_spawned (k a)) → spawns_at_most h n (bind m k) P.
Proof.
  intros Hm Hk s. unfold bind. destruct (Hm s) as (l & Hl & Hn & HP).
  exists l. destruct (m h s) as [[a|e|] s0]; cbn [snd] in *; [|done..].
  by rewrite Hk.
Qed.

Lemma sa_try_except n (m : M A) (handler : Exn → M A) :
  spawns_at_most h n m P → (∀ e, keeps_spawned (handler e)) →
  spawns_at_most h n (try_except m handler) P.
Proof.
  intros Hm Hk s. unfold try_except. destruct (Hm s) as (l & Hl & Hn & HP).
  exists l. destruct (m h s) as [[a|e|] s0]; cbn [snd] in *; [done| |done].
  by rewrite Hk.
Qed.

Lemma sa_try_finally n (m : M A) (fin : M unit) :
  spawns_at_most h n m P → keeps_spawned fin → spawns_at_most h n (try_finally m fin) P.
Proof.
  intros Hm Hf s. unfold try_finally. destruct (Hm s) as (l & Hl & Hn & HP).
  exists l. destruct (m h s) as [[a|e|] s0]; cbn [snd] in *; [| |done];
    specialize (Hf h s0); destruct (fin h s0) as [[[]|e1|] s1]; cbn [snd] in *;
    by rewrite Hf.
Qed.

Lemma sa_attempt n (m : M A) : spawns_at_most h n m P → spawns_at_most h n (attempt m) P.
Proof.
  intros Hm s. unfold attempt. destruct (Hm s) as (l & Hl & Hn & HP).
  exists l. by destruct (m h s) as [[a|e|] s0].
Qed.
End SpawnsAtMost.

Lemma sa_mono {A} h n (m : M A) (P P' : Spawn → Prop) :
  (∀ sp, P sp → P' sp) → spawns_at_most h n m P → spawns_at_most h n m P'.
Proof.
  intros HPP Hm s. destruct (Hm s) as (l & Hl & Hn & HP).
  exists l. repeat split; [done..|]. by eapply Forall_impl.
Qed.

Lemma rw_true {A} h (m : M A) : returns_with h m (fun _ => True).
Proof. by intros s a s' _. Qed.

Lemma sa_execute_python h self code :
  spawns_at_most h 1 (CodeExecutor._execute_python self code)
    (fun sp => sp = mkSpawn (Exec [sys_executable h; CodeExecutor.python_temp_file self])
                       (CodeExecutor.preexec_fn h)).
Proof.
  unfold CodeExecutor._execute_python.
  apply sa_try_finally; [|apply ks_remove_temp_file].
  eapply sa_bind_l; [apply rw_get_host|apply ks_get_host|]. intros ? ->.
  apply sa_bind_r.
  - apply sa_attempt. eapply sa_bind_l; [apply rw_true|apply ks_write_text|].
    intros _ _. by apply sa_create.
  - intros started. keeps.
Qed.

Lemma sa_execute_javascript h self code :
  spawns_at_most h 1 (CodeExecutor._execute_javascript self code)
    (fun sp => sp = mkSpawn (Exec [py "node"; CodeExecutor.javascript_temp_file self])
                       (CodeExecutor.preexec_fn h)).
Proof.
  unfold CodeExecutor._execute_javascript.
  apply sa_try_finally; [|apply ks_remove_temp_file].
  apply sa_try_except; [|intros e; keeps].
  eapply sa_bind_l; [apply rw_get_host|apply ks_get_host|]. intros ? ->.
  eapply sa_bind_l; [apply rw_true|apply ks_write_text|]. intros _ _.
  apply sa_bind_r; [by apply sa_create|]. intros p. keeps.
Qed.

Lemma sa_execute_shell h self code :
  spawns_at_most h 1 (CodeExecutor._execute_shell self code)
    (fun sp => sp = mkSpawn (Shell code) (CodeExecutor.preexec_fn h)
               ∧ CodeExecutor.unsafe code = false).
Proof.
  unfold CodeExecutor._execute_shell. destruct (CodeExecutor.unsafe code) eqn:Hu.
  - apply sa_keeps, ks_ret.
  - eapply sa_bind_l; [apply rw_get_host|apply ks_get_host|]. intros ? ->.
    apply sa_bind_r; [by apply sa_create|]. intros p. keeps.
Qed.

(** A text that passes the guard consists of allowed commands only. *)
Lemma safe_tokens code tok :
  CodeExecutor.unsafe code = false → tok ∈ split code → tok ∈ CodeExecutor.allowed_commands.
Proof.
  intros Hu Hin. destruct (decide (tok ∈ CodeExecutor.allowed_commands)) as [|Hout]; [done|].
  assert (CodeExecutor.unsafe code = true) by (apply unsafe_spec; eauto). congruence.
Qed.

Lemma sa_execute_code h self code language :
  spawns_at_most h 1 (CodeExecutor.execute_code self code language)
    (fun sp =>
       preexec sp = CodeExecutor.preexec_fn h
       ∧ (command sp = Exec [sys_executable h; CodeExecutor.python_temp_file self]
          ∨ command sp = Exec [py "node"; CodeExecutor.javascript_temp_file self]
          ∨ command sp = Shell code
            ∧ ∀ tok, tok ∈ split code → tok ∈ CodeExecutor.allowed_commands)).
Proof.
  unfold CodeExecutor.execute_code. rewrite supported_lookup.
  repeat case_decide.
  - apply sa_try_except; [|intros e; keeps].
    eapply sa_mono; [|apply sa_execute_shell]. intros sp [-> Hu]. simpl.
    split; [done|]. right. right. split; [done|]. intros tok. by apply safe_tokens.
  - apply sa_try_except; [|intros e; keeps].
    eapply sa_mono; [|apply sa_execute_javascript]. intros sp ->. simpl. auto.
  - apply sa_try_except; [|intros e; keeps].
    eapply sa_mono; [|apply sa_execute_python]. intros sp ->. simpl. auto.
  - apply sa_keeps, ks_ret.
Qed.

(** X4: whatever the language and the host, one [execute_code] call
    starts at most one process.  The process carries the resource limits
    of the platform and is the interpreter on script.py, node on script.js,
    or a shell on the command text; in the last case every whitespace
    token of the text is an allowed command. *)
Theorem execute_code_spawns_at_most_one (self : CodeExecutor.t) (code language : pystr)
    (h : Host) (s : Sys) :
  ∃ l, spawned (CodeExecutor.execute_code self code language h s).2 = spawned s ++ l
       ∧ (length l ≤ 1)%nat
       ∧ Forall (fun sp =>
           preexec sp = CodeExecutor.preexec_fn h
           ∧ (command sp = Exec [sys_executable h; CodeExecutor.python_temp_file self]
              ∨ command sp = Exec [py "node"; CodeExecutor.javascript_temp_file self]
              ∨ command sp = Shell code
                ∧ ∀ tok, tok ∈ split code → tok ∈ CodeExecutor.allowed_commands)) l.
Proof. apply sa_execute_code. Qed.

Lemma sa_install_dependencies h self packages language :
  spawns_at_most h 1 (DependencyManager.install_dependencies self packages language)
    (fun sp =>
       packages ≠ []
       ∧ preexec sp = None
       ∧ ∃ manager install_cmd,
           DependencyManager.package_managers self !! language = Some (manager, install_cmd)
           ∧ command sp = Exec (manager :: install_cmd :: packages)).
Proof.
  unfold DependencyManager.install_dependencies.
  destruct packages as [|p ps]; [apply sa_keeps, ks_ret|].
  destruct (DependencyManager.package_managers self !! language) as [[manager install_cmd]|] eqn:E;
    [|apply sa_keeps, ks_ret].
  apply sa_try_except; [|intros e; keeps].
  apply sa_bind_r; [|intros pr; keeps].
  apply sa_create. split; [done|]. split; [done|]. eauto.
Qed.

(** X5: one [install_dependencies] call starts at most one process: the
    package manager of the language with its install command and all the
    packages, in order, as arguments, and without resource limits. *)
Theorem install_spawns_at_most_one (self : DependencyManager.t) (packages : list pystr)
    (language : pystr) (h : Host) (s : Sys) :
  ∃ l, spawned (DependencyManager.install_dependencies self packages language h s).2
         = spawned s ++ l
       ∧ (length l ≤ 1)%nat
       ∧ Forall (fun sp =>
           packages ≠ []
           ∧ preexec sp = None
           ∧ ∃ manager install_cmd,
               DependencyManager.package_managers self !! language = Some (manager, install_cmd)
               ∧ command sp = Exec (manager :: install_cmd :: packages)) l.
Proof. apply sa_install_dependencies. Qed.

(** ** Shape of the results *)

Ltac built_step :=
  lazymatch goal with
  | |- returns_with _ (bind _ _) _ => eapply rw_bind; [apply rw_true|intros ? _]
  | |- returns_with _ (try_except _ _) _ => apply rw_try_except; [|intros ?]
  | |- returns_with _ (try_finally _ _) _ => apply rw_try_finally
  | |- returns_with _ (ret _) _ => apply rw_ret
  | |- returns_with _ (raise _) _ => apply rw_raise
  | |- returns_with _ (match ?x with _ => _ end) _ => destruct x eqn:?
  end.

(** Every result of [execute_code] is built with the defaults of the
    constructor. *)
Lemma rw_execute_code_defaults h self code language :
  returns_with h (CodeExecutor.execute_code self code language)
    (fun r => execution_time r = 0%Z ∧ memory_usage r = 0%Z).
Proof.
  unfold CodeExecutor.execute_code. rewrite supported_lookup.
  repeat case_decide;
    [unfold CodeExecutor._execute_shell
    |unfold CodeExecutor._execute_javascript
    |unfold CodeExecutor._execute_python|];
    unfold CodeExecutor.exit_result; repeat built_step; done.
Qed.

Lemma to_dict_lookup r :
  to_dict r !! py "success" = Some (VBool (success r))
  ∧ to_dict r !! py "output" = Some (VStr (output r))
  ∧ to_dict r !! py "error" = Some (VOpt (error r))
  ∧ to_dict r !! py "time" = Some (VInt (execution_time r))
  ∧ to_dict r !! py "memory" = Some (VInt (memory_usage r)).
Proof. repeat split; reflexivity. Qed.

(** X6: the dictionary that the facade returns for an execution always
    reports time 0 and memory 0, whatever ran and however long: no runner
    measures either. *)
Theorem execute_code_reports_no_usage (engine : Executor.t) (code language : pystr)
    (h : Host) (s : Sys) (d : gmap pystr PyVal) :
  (Executor.execute_code engine code language h s).1 = Ret d →
  d !! py "time" = Some (VInt 0) ∧ d !! py "memory" = Some (VInt 0).
Proof.
  unfold Executor.execute_code, bind.
  destruct (CodeExecutor.execute_code (Executor.code_executor engine) code language h s)
    as [[r|e|] s0] eqn:E; [|discriminate..].
  apply rw_execute_code_defaults in E as [Ht Hm].
  cbn [fst snd ret]. intros [= <-].
  destruct (to_dict_lookup r) as (_ & _ & _ & Htime & Hmem).
  by rewrite Htime, Hmem, Ht, Hm.
Qed.

Lemma execute_code_reports_no_usage_witness :
  to_dict (new false [] (Some (py "Execution timeout"))) !! py "time" = Some (VInt 0)
  ∧ to_dict (new false [] (Some (py "Execution timeout"))) !! py "memory" = Some (VInt 0).
Proof.
  apply (execute_code_reports_no_usage sample_engine (py "while True: pass") (py "python")
           (sample_host (mkBehaviour Runs_forever id)) (sample_sys [])).
  vm_compute. reflexivity.
Defined.

(** X7: [to_dict] loses nothing: two results with the same dictionary are
    the same result. *)
Theorem to_dict_injective (r1 r2 : ExecutionResult.t) :
  to_dict r1 = to_dict r2 → r1 = r2.
Proof.
  intros Heq.
  destruct (to_dict_lookup r1) as (Hs1 & Ho1 & He1 & Ht1 & Hm1).
  destruct (to_dict_lookup r2) as (Hs2 & Ho2 & He2 & Ht2 & Hm2).
  rewrite Heq in Hs1, Ho1, He1, Ht1, Hm1.
  destruct r1 as [s1 o1 e1 t1 m1], r2 as [s2 o2 e2 t2 m2]; simpl in *.
  assert (e1 = e2).
  { destruct e1, e2; simpl in *; congruence. }
  congruence.
Qed.

Lemma to_dict_injective_witness :
  new true (py "hi") None = new true (py "hi") None.
Proof. apply to_dict_injective. reflexivity. Defined.

(** What [install_dependencies] returns: a success flag, and as installed
    packages all of them or none. *)
Lemma rw_install_dependencies h self packages language :
  returns_with h (DependencyManager.install_dependencies self packages language)
    (fun d => ∃ b, d !! py "success" = Some (VBool b)
                   ∧ dict_get d (py "installed") (VList [])
                     = VList (if b then packages else [])).
Proof.
  unfold DependencyManager.install_dependencies.
  destruct packages as [|p ps].
  { apply rw_ret. exists true. split; reflexivity. }
  destruct (DependencyManager.package_managers self !! language) as [[manager install_cmd]|].
  2: { apply rw_ret. exists false. split; reflexivity. }
  apply rw_try_except.
  - repeat built_step; (eexists; split; [reflexivity|]); reflexivity.
  - intros e. destruct (is_Exception e); [|apply rw_raise].
    apply rw_ret. exists false. split; reflexivity.
Qed.

(** X8: installation is reported all or nothing: the installed packages
    of a result are the whole list passed in when the result is a success,
    and none when it is a failure. *)
Theorem install_all_or_nothing (engine : Executor.t) (packages : list pystr)
    (language : pystr) (h : Host) (s : Sys) (d : gmap pystr PyVal) :
  (Executor.install_dependencies engine packages language h s).1 = Ret d →
  ∃ b, d !! py "success" = Some (VBool b)
       ∧ dict_get d (py "installed") (VList []) = VList (if b then packages else []).
Proof.
  unfold Executor.install_dependencies. intros Hd.
  destruct (DependencyManager.install_dependencies _ packages language h s)
    as [o s'] eqn:E. simpl in Hd. subst o.
  by apply rw_install_dependencies in E.
Qed.

Lemma install_all_or_nothing_witness :
  ∃ b, (<[py "installed" := VList []]>
          (<[py "error" := VStr (py "boom")]>
             (<[py "output" := VStr []]>
                (<[py "success" := VBool false]> (∅ : gmap pystr PyVal)))))
         !! py "success" = Some (VBool b)
       ∧ dict_get
           (<[py "installed" := VList []]>
              (<[py "error" := VStr (py "boom")]>
                 (<[py "output" := VStr []]>
                    (<[py "success" := VBool false]> (∅ : gmap pystr PyVal)))))
           (py "installed") (VList [])
         = VList (if b then [py "requests"; py "numpy"] else []).
Proof.
  apply (install_all_or_nothing sample_engine [py "requests"; py "numpy"] (py "python")
           (sample_host (exits_with 3 1 [] [x62; x6f; x6f; x6d])) (sample_sys [])).
  vm_compute. reflexivity.
Defined.

(** ** Failures of the runners and of the installer *)

(** A [try] whose handler answers every [Exception] raises nothing on a
    host with the expected faults. *)
Lemma catch_all_never_raises {A} (m : M A) (answer : Exn → A) h s e :
  expected_faults h →
  raises_only_exceptions m →
  (try_except m (fun e0 => if is_Exception e0 then ret (answer e0) else raise e0) h s).1
    ≠ Raise e.
Proof.
  intros Hh Hm. unfold try_except.
  destruct (m h s) as [[a|e0|] s0] eqn:E; [done| |done].
  by rewrite (Hm h s e0 s0 Hh E).
Qed.

(** X9: on a host whose faults derive from [Exception], the installer
    never raises, whatever the packages and the language: a package
    manager that cannot be started or whose output cannot be decoded shows
    in the result. *)
Theorem install_never_raises (engine : Executor.t) (packages : list pystr)
    (language : pystr) (h : Host) (s : Sys) (e : Exn) :
  expected_faults h →
  (Executor.install_dependencies engine packages language h s).1 ≠ Raise e.
Proof.
  intros Hh. unfold Executor.install_dependencies, DependencyManager.install_dependencies.
  destruct packages as [|p ps]; [done|].
  destruct (DependencyManager.package_managers _ !! language) as [[manager install_cmd]|];
    [|done].
  apply catch_all_never_raises; [done|]. safe.
Qed.

Lemma install_never_raises_witness :
  (Executor.install_dependencies sample_engine [py "requests"] (py "python")
     host_without_runtime (sample_sys [])).1
  ≠ Raise (mkExn FileNotFoundError (py "No such file or directory")).
Proof.
  apply (install_never_raises sample_engine [py "requests"] (py "python")
           host_without_runtime (sample_sys [])).
  split; intros s p; intros; [discriminate|].
  match goal with H : _ = inl _ |- _ => injection H as <- end. reflexivity.
Defined.

(** When the path is no directory the [finally] clause returns, leaves no
    file under the path and touches nothing but the files. *)
Lemma remove_temp_file_frame p h s :
  is_dir (fs s) p = false →
  ∃ s', CodeExecutor.remove_temp_file p h s = (Ret (), s')
        ∧ is_file (fs s') p = false
        ∧ dirs (fs s') = dirs (fs s)
        ∧ spawned s' = spawned s ∧ terminated s' = terminated s
        ∧ logged s' = logged s ∧ tmp_names s' = tmp_names s.
Proof.
  intros Hd. pose proof (remove_temp_file_removes p h s) as Hrm. revert Hrm.
  unfold CodeExecutor.remove_temp_file, bind, path_exists, unlink, ret.
  rewrite Hd. destruct (is_file (fs s) p) eqn:Hf; cbn [orb]; rewrite ?Hf; eauto 10.
Qed.

Lemma is_class_true c e : exn_class e = c → is_class c e = true.
Proof. intros <-. unfold is_class. by apply bool_decide_eq_true. Qed.

Lemma is_class_false c e : exn_class e ≠ c → is_class c e = false.
Proof. intros Hne. unfold is_class. by apply bool_decide_eq_false. Qed.

(** X10: when node cannot be started because the program is not found,
    the JavaScript runner returns "Node.js is not installed" and leaves no
    source file behind. *)
Theorem javascript_missing_runtime (self : CodeExecutor.t) (code : pystr) (h : Host)
    (s : Sys) (e : Exn) :
  let temp_file := CodeExecutor.javascript_temp_file self in
  let written := mkFS (<[normpath temp_file := code]> (files (fs s))) (dirs (fs s)) in
  is_dir (fs s) temp_file = false →
  write_outcome h s temp_file code = Written →
  spawn_outcome h (set_fs s written)
      (mkSpawn (Exec [py "node"; temp_file]) (CodeExecutor.preexec_fn h)) = inl e →
  exn_class e = FileNotFoundError →
  let r := CodeExecutor._execute_javascript self code h s in
  r.1 = Ret (new false [] (Some (py "Node.js is not installed")))
  ∧ is_file (fs r.2) temp_file = false.
Proof.
  intros temp_file written Hd Hw Hsp Hc. cbv zeta.
  unfold CodeExecutor._execute_javascript, try_finally, try_except, bind, get_host, write_text.
  fold temp_file. rewrite Hd, Hw. fold written.
  unfold create_subprocess. rewrite Hsp, (is_class_true _ _ Hc). unfold ret.
  match goal with
  | |- context [CodeExecutor.remove_temp_file temp_file h ?S] =>
      destruct (remove_temp_file_frame temp_file h S Hd) as (s' & -> & Hf & _)
  end.
  done.
Qed.

Lemma javascript_missing_runtime_witness :
  (CodeExecutor._execute_javascript sample_executor (py "console.log(1)")
     host_without_runtime (sample_sys [])).1
  = Ret (new false [] (Some (py "Node.js is not installed"))).
Proof.
  apply (javascript_missing_runtime sample_executor (py "console.log(1)")
           host_without_runtime (sample_sys [])
           (mkExn FileNotFoundError (py "No such file or directory")));
    reflexivity.
Defined.

(** X11: the JavaScript runner answers every [FileNotFoundError] of its
    [try] body alike: when it is the write of the source file that fails
    with it (the workspace directory is missing), the result is still
    "Node.js is not installed", and node is never started. *)
Theorem javascript_missing_workspace (self : CodeExecutor.t) (code : pystr) (h : Host)
    (s : Sys) (e : Exn) (left_behind : option pystr) :
  let temp_file := CodeExecutor.javascript_temp_file self in
  is_dir (fs s) temp_file = false →
  write_outcome h s temp_file code = WriteFails e left_behind →
  exn_class e = FileNotFoundError →
  let r := CodeExecutor._execute_javascript self code h s in
  r.1 = Ret (new false [] (Some (py "Node.js is not installed")))
  ∧ spawned r.2 = spawned s.
Proof.
  intros temp_file Hd Hw Hc. cbv zeta.
  unfold CodeExecutor._execute_javascript, try_finally, try_except, bind, get_host, write_text.
  fold temp_file. rewrite Hd, Hw.
  destruct left_behind as [partial|]; rewrite (is_class_true _ _ Hc); unfold ret;
    match goal with
    | |- context [CodeExecutor.remove_temp_file temp_file h ?S] =>
        destruct (remove_temp_file_frame temp_file h S Hd) as (s' & -> & _ & _ & Hs & _)
    end; done.
Qed.

Lemma javascript_missing_workspace_witness :
  (CodeExecutor._execute_javascript sample_executor (py "console.log(1)")
     host_without_workspace (sample_sys [])).1
  = Ret (new false [] (Some (py "Node.js is not installed"))).
Proof.
  apply (javascript_missing_workspace sample_executor (py "console.log(1)")
           host_without_workspace (sample_sys [])
           (mkExn FileNotFoundError (py "No such file or directory")) None);
    reflexivity.
Defined.

(** X12: when the interpreter cannot be started, [execute_code] for Python
    returns a failure whose error is the text of the exception, logs it,
    and leaves no source file behind. *)
Theorem python_spawn_failure_reported (self : CodeExecutor.t) (code language : pystr)
    (h : Host) (s : Sys) (e : Exn) :
  let temp_file := CodeExecutor.python_temp_file self in
  let written := mkFS (<[normpath temp_file := code]> (files (fs s))) (dirs (fs s)) in
  lower language = py "python" →
  is_dir (fs s) temp_file = false →
  write_outcome h s temp_file code = Written →
  spawn_outcome h (set_fs s written)
      (mkSpawn (Exec [sys_executable h; temp_file]) (CodeExecutor.preexec_fn h)) = inl e →
  is_Exception e = true →
  exn_class e ≠ TimeoutError →
  let r := CodeExecutor.execute_code self code language h s in
  r.1 = Ret (new false [] (Some (str_exn e)))
  ∧ logged r.2 = logged s ++ [py "Execution error: " ++ str_exn e]
  ∧ is_file (fs r.2) temp_file = false.
Proof.
  intros temp_file written Hl Hd Hw Hsp He Hc. cbv zeta.
  assert (H : ∃ s', CodeExecutor.execute_code self code language h s
                      = (Ret (new false [] (Some (str_exn e))), s')
                    ∧ logged s' = logged s ++ [py "Execution error: " ++ str_exn e]
                    ∧ is_file (fs s') temp_file = false).
  { unfold CodeExecutor.execute_code. rewrite supported_lookup, Hl.
    rewrite !decide_False by discriminate. rewrite decide_True by done.
    unfold try_except.
    unfold CodeExecutor._execute_python, try_finally, bind, get_host, attempt, write_text.
    fold temp_file. rewrite Hd, Hw. fold written.
    unfold create_subprocess. rewrite Hsp, (is_class_false _ _ Hc). unfold raise.
    match goal with
    | |- context [CodeExecutor.remove_temp_file temp_file h ?S] =>
        destruct (remove_temp_file_frame temp_file h S Hd)
          as (s' & -> & Hf & _ & _ & _ & Hlog & _)
    end.
    rewrite He. unfold logger_error, ret. eexists. split; [reflexivity|].
    cbn [logged fs]. by rewrite Hlog. }
  destruct H as (s' & -> & Hlog & Hf). done.
Qed.

Lemma python_spawn_failure_reported_witness :
  (CodeExecutor.execute_code sample_executor (py "print(1)") (py "Python")
     host_without_runtime (sample_sys [])).1
  = Ret (new false [] (Some (py "No such file or directory"))).
Proof.
  apply (python_spawn_failure_reported sample_executor (py "print(1)") (py "Python")
           host_without_runtime (sample_sys [])
           (mkExn FileNotFoundError (py "No such file or directory")));
    try reflexivity.
  discriminate.
Defined.



(** ** Construction and shutdown of the engine *)

Lemma filter_filter_set (P : pystr → Prop) `{!∀ x, Decision (P x)} (X : gset pystr) :
  filter P (filter P X) = filter P X.
Proof. apply set_eq. intros x. rewrite !elem_of_filter. tauto. Qed.

Lemma filter_filter_map (P : pystr * pystr → Prop) `{!∀ x, Decision (P x)}
    (m : gmap pystr pystr) :
  filter P (filter P m) = filter P m.
Proof. apply map_filter_id. intros i x. by intros [_ ?]%map_lookup_filter_Some. Qed.

Lemma cleanup_state engine h s :
  (Executor.cleanup engine h s).2
  = if bool_decide (Executor.workspace_dir engine ≠ [])
       && is_dir (fs s) (Executor.workspace_dir engine)
    then set_fs s
           (mkFS (filter (fun kv => below (normpath (Executor.workspace_dir engine)) kv.1 = false)
                    (files (fs s)))
                 (filter (fun q => (q ≠ normpath (Executor.workspace_dir engine)
                                    ∨ rmdir_refused (Executor.workspace_dir engine) = true)
                                   ∧ below (normpath (Executor.workspace_dir engine)) q = false)
                    (dirs (fs s))))
    else s.
Proof.
  unfold Executor.cleanup, bind, os_path_exists, rmtree_ignore_errors, ret.
  destruct (Executor.workspace_dir engine) as [|c d]; [reflexivity|].
  rewrite bool_decide_eq_true_2 by done.
  destruct (is_file _ _) eqn:Ef, (is_dir _ _) eqn:Ed; cbv beta iota delta [orb andb];
    rewrite ?Ed; reflexivity.
Qed.

(** X14: [cleanup] can be called again: neither call raises, and the
    second leaves the host exactly as the first left it. *)
Theorem cleanup_idempotent (engine : Executor.t) (h : Host) (s : Sys) :
  let first := Executor.cleanup engine h s in
  let second := Executor.cleanup engine h first.2 in
  first.1 = Ret () ∧ second.1 = Ret () ∧ second.2 = first.2.
Proof.
  cbv zeta. split; [apply cleanup_returns|]. split; [apply cleanup_returns|].
  set (s1 := (Executor.cleanup engine h s).2).
  rewrite (cleanup_state engine h s1).
  destruct (_ && is_dir (fs s1) _) eqn:E2; [|done].
  revert E2. subst s1. rewrite (cleanup_state engine h s).
  destruct (_ && is_dir (fs s) _) eqn:E1; [|congruence].
  intros _. unfold set_fs. cbn [fs files dirs spawned terminated tmp_names logged].
  by rewrite filter_filter_set, filter_filter_map.
Qed.





Example below_examples :
  below (py "/ws") (py "/ws/script.py") = true
  ∧ below (py "/ws") (py "/ws/sub/a.txt") = true
  ∧ below (py "/ws") (py "/ws/../keep.txt") = false
  ∧ below (py "/ws") (py "/ws/sub/../../keep.txt") = false
  ∧ below (py "/ws") (py "/wsx/a.txt") = false
  ∧ below (py "/ws") (py "/ws") = false
  ∧ below (py ".") (py "script.py") = true
  ∧ below (py ".") (py "../script.py") = false
  ∧ below (py ".") (py "/ws/script.py") = false
  ∧ below (py "/") (py "/ws") = true.
Proof. repeat split; reflexivity. Qed.

(** The workspace [.]: the directory is emptied and kept. *)
Example cleanup_dot_workspace :
  let s := mkSys (mkFS (<[py "script.py" := py "print(1)"]> (<[py "/etc/passwd" := []]> ∅))
                       {[py "."; py "sub"; py "/etc"]}) [] [] [] [] in
  let s' := (Executor.cleanup (Executor.mk (CodeExecutor.mk (py ".")) DependencyManager.init (py "."))
               (sample_host (exits_with 0 0 [] [])) s).2 in
  is_dir (fs s') (py ".") = true
  ∧ is_dir (fs s') (py "sub") = false
  ∧ is_file (fs s') (py "script.py") = false
  ∧ is_file (fs s') (py "/etc/passwd") = true
  ∧ is_dir (fs s') (py "/etc") = true.
Proof. vm_compute. repeat split; reflexivity. Qed.

(** An engine whose workspace is the empty string: [os.path.exists]
    answers no, and nothing is removed. *)
Example cleanup_unnamed_workspace :
  let s := mkSys (mkFS (<[py "script.py" := py "print(1)"]> ∅) {[py "."]}) [] [] [] [] in
  (Executor.cleanup (Executor.mk (CodeExecutor.mk []) DependencyManager.init [])
     (sample_host (exits_with 0 0 [] [])) s).2 = s.
Proof. reflexivity. Qed.

Lemma pick_name_free taken mk names p rest :
  pick_name taken mk names = Some (p, rest) → taken p = false.
Proof.
  induction names as [|n names IH]; [done|]. simpl.
  destruct (taken (mk n)) eqn:E; [exact IH|]. by intros [= <- _].
Qed.

(** What [mkdtemp] returns did not exist, and is a directory afterwards,
    the only change to the file system. *)
Lemma mkdtemp_fresh prefix h s p s' :
  mkdtemp prefix h s = (Ret p, s') →
  is_file (fs s) p = false ∧ is_dir (fs s) p = false
  ∧ fs s' = mkFS (files (fs s)) ({[normpath p]} ∪ dirs (fs s))
  ∧ spawned s' = spawned s.
Proof.
  unfold mkdtemp.
  destruct (pick_name _ _ _) as [[p' rest]|] eqn:E; [|discriminate].
  intros [= <- <-]. apply pick_name_free in E. apply orb_false_iff in E as [? ?]. done.
Qed.

(** X16: an engine constructed without a workspace directory holds two
    different temporary directories, one in its code executor and one of
    its own; neither existed before, both exist afterwards, and no file is
    touched. *)
Theorem engine_default_workspaces (h : Host) (s s' : Sys) (engine : Executor.t) :
  Executor.init None h s = (Ret engine, s') →
  let d1 := CodeExecutor.workspace_dir (Executor.code_executor engine) in
  let d2 := Executor.workspace_dir engine in
  normpath d1 ≠ normpath d2
  ∧ is_dir (fs s) d1 = false ∧ is_dir (fs s) d2 = false
  ∧ is_dir (fs s') d1 = true ∧ is_dir (fs s') d2 = true
  ∧ files (fs s') = files (fs s).
Proof.
  unfold Executor.init, CodeExecutor.init, or_mkdtemp, bind, ret.
  destruct (mkdtemp (py "ai_agent_") h s) as [[p1|e|] s1] eqn:E1; [|discriminate..].
  destruct (mkdtemp (py "ai_agent_") h s1) as [[p2|e|] s2] eqn:E2; [|discriminate..].
  intros [= <- <-]. cbn [CodeExecutor.workspace_dir Executor.code_executor Executor.workspace_dir].
  apply mkdtemp_fresh in E1 as (Hf1 & Hd1 & Hfs1 & _).
  apply mkdtemp_fresh in E2 as (Hf2 & Hd2 & Hfs2 & _).
  unfold is_dir in *. rewrite Hfs2, Hfs1 in *. cbn [dirs files] in *.
  apply bool_decide_eq_false in Hd1, Hd2.
  repeat split.
  - intros Heq. apply Hd2. rewrite Heq. set_solver.
  - by apply bool_decide_eq_false.
  - apply bool_decide_eq_false. set_solver.
  - apply bool_decide_eq_true. set_solver.
  - apply bool_decide_eq_true. set_solver.
Qed.

Lemma engine_default_workspaces_witness :
  normpath (py "/tmp/ai_agent_k3x9") ≠ normpath (py "/tmp/ai_agent_q7wz").
Proof.
  pose (h := sample_host (exits_with 0 0 [] [])).
  pose (r := Executor.init None h (sample_sys [py "k3x9"; py "q7wz"])).
  apply (engine_default_workspaces h (sample_sys [py "k3x9"; py "q7wz"]) r.2
           (Executor.mk (CodeExecutor.mk (py "/tmp/ai_agent_k3x9")) DependencyManager.init
              (py "/tmp/ai_agent_q7wz"))).
  vm_compute. reflexivity.
Defined.

(** An engine constructed with a non-empty workspace directory uses
    it for its code executor and for itself, and the constructor creates
    nothing: the host is left as it was, whether the directory exists or
    not. *)
Theorem engine_given_workspace (d : pystr) (h : Host) (s : Sys) :
  d ≠ [] →
  Executor.init (Some d) h s
  = (Ret (Executor.mk (CodeExecutor.mk d) DependencyManager.init d), s).
Proof. intros Hd. by destruct d. Qed.

Lemma engine_given_workspace_witness :
  Executor.init (Some (py "/ws")) host_without_workspace (sample_sys [])
  = (Ret sample_engine, sample_sys []).
Proof. apply (engine_given_workspace (py "/ws")). discriminate. Defined.

(** ** The dispatcher *)

Lemma roe_execute_code self code language :
  raises_only_exceptions (CodeExecutor.execute_code self code language).
Proof.
  intros h s e s' Hh H. exfalso.
  apply (execute_code_never_raises self code language h s e Hh). by rewrite H.
Qed.

Lemma roe_install_dependencies self packages language :
  raises_only_exceptions (Executor.install_dependencies self packages language).
Proof.
  unfold Executor.install_dependencies, DependencyManager.install_dependencies.
  destruct packages as [|p ps]; [apply roe_ret|].
  destruct (DependencyManager.package_managers _ !! language) as [[manager install_cmd]|];
    [|apply roe_ret].
  apply roe_try_except; [safe|].
  intros e He. rewrite He. apply roe_ret.
Qed.

Lemma roe_ask (agent : AIAgent.t) prompt :
  (∀ p e, AIAgent.generate_response agent p = Raise e → is_Exception e = true) →
  raises_only_exceptions (AIAgent.ask agent prompt).
Proof. intros Hp h s e s' _ H. unfold AIAgent.ask in H. injection H as H _. eauto. Qed.

(** X17: on a host whose faults derive from [Exception], and with a
    provider whose faults do, [execute_operation] never raises, for any
    operation: what a handler raises comes back as a failed result. *)
Theorem execute_operation_never_raises (agent : AIAgent.t) (operation : CodeOperation.t)
    (h : Host) (s : Sys) (e : Exn) :
  expected_faults h →
  (∀ p e0, AIAgent.generate_response agent p = Raise e0 → is_Exception e0 = true) →
  (AIAgent.execute_operation agent operation h s).1 ≠ Raise e.
Proof.
  intros Hh Hp. unfold AIAgent.execute_operation.
  apply (catch_all_never_raises _
           (fun e0 => OperationResult.mk false [] ∅ [py "Operation failed: " ++ str_exn e0]));
    [done|].
  destruct (CodeOperation.operation_type operation); simpl.
  - apply roe_bind; [by apply roe_ask|]. intros. apply roe_ret.
  - apply roe_bind; [by apply roe_ask|]. intros. apply roe_ret.
  - apply roe_bind; [by apply roe_ask|]. intros. apply roe_ret.
  - apply roe_bind; [apply roe_install_dependencies|]. intros. apply roe_ret.
  - apply roe_bind; [|intros; apply roe_ret].
    apply roe_bind; [apply roe_execute_code|]. intros. apply roe_ret.
Qed.

Lemma execute_operation_never_raises_witness :
  (AIAgent.execute_operation sample_agent
     (sample_operation INSTALL [] (py "python") [py "requests"])
     host_without_runtime (sample_sys [])).1
  ≠ Raise (mkExn FileNotFoundError (py "No such file or directory")).
Proof.
  apply (execute_operation_never_raises sample_agent
           (sample_operation INSTALL [] (py "python") [py "requests"])
           host_without_runtime (sample_sys [])).
  - split; intros s p; intros; [discriminate|].
    match goal with H : _ = inl _ |- _ => injection H as <- end. reflexivity.
  - intros p e0 H. discriminate H.
Defined.

(** X18: an install operation always runs pip, whatever language the
    operation names: the dispatcher does not pass the language on.  At most
    one process is started, [pip install] with the packages of the
    operation. *)
Theorem install_operation_runs_pip (agent : AIAgent.t) (operation : CodeOperation.t)
    (h : Host) (s : Sys) :
  Executor.dependency_manager (AIAgent.executor agent) = DependencyManager.init →
  CodeOperation.operation_type operation = INSTALL →
  ∃ l, spawned (AIAgent.execute_operation agent operation h s).2 = spawned s ++ l
       ∧ (length l ≤ 1)%nat
       ∧ Forall (fun sp =>
           sp = mkSpawn
                  (Exec (py "pip" :: py "install"
                         :: default [] (CodeOperation.parameters operation !! py "packages")))
                  None) l.
Proof.
  intros Hdm Hop. revert s.
  change (spawns_at_most h 1 (AIAgent.execute_operation agent operation)
    (fun sp =>
       sp = mkSpawn
              (Exec (py "pip" :: py "install"
                     :: default [] (CodeOperation.parameters operation !! py "packages")))
              None)).
  unfold AIAgent.execute_operation. rewrite Hop. simpl.
  apply sa_try_except; [|intros e; keeps].
  unfold AIAgent._handle_install, Executor.install_dependencies.
  apply sa_bind_r; [|intros d; apply ks_ret].
  eapply sa_mono; [|apply sa_install_dependencies].
  intros [cmd pre] (_ & Hpre & manager & install_cmd & Hlook & Hcmd). simpl in *.
  rewrite Hdm, package_managers_lookup in Hlook.
  rewrite decide_False, decide_True in Hlook by done.
  injection Hlook as <- <-. by subst.
Qed.

Lemma install_operation_runs_pip_witness :
  ∃ l, spawned (AIAgent.execute_operation sample_agent
                  (sample_operation INSTALL [] (py "javascript") [py "left-pad"])
                  (sample_host (exits_with 1 0 [] [])) (sample_sys [])).2
         = spawned (sample_sys []) ++ l
       ∧ (length l ≤ 1)%nat
       ∧ Forall (fun sp =>
           sp = mkSpawn (Exec (py "pip" :: py "install" :: default [] (Some [py "left-pad"])))
                  None) l.
Proof.
  apply (install_operation_runs_pip sample_agent
           (sample_operation INSTALL [] (py "javascript") [py "left-pad"])
           (sample_host (exits_with 1 0 [] [])) (sample_sys [])); reflexivity.
Defined.

(** What [execute_code] raises is no [Exception]: those it answers itself. *)
Lemma execute_code_raises_base self code language h s e s' :
  CodeExecutor.execute_code self code language h s = (Raise e, s') → is_Exception e = false.
Proof.
  unfold CodeExecutor.execute_code. rewrite supported_lookup.
  assert (Hgen : ∀ m : M ExecutionResult.t,
             try_except m
               (fun e0 => if is_Exception e0
                          then do_ logger_error (py "Execution error: " ++ str_exn e0);
                               ret (new false [] (Some (str_exn e0)))
                          else raise e0) h s = (Raise e, s') →
             is_Exception e = false).
  { intros m. unfold try_except.
    destruct (m h s) as [[r|e0|] s0]; [discriminate| |discriminate].
    destruct (is_Exception e0) eqn:E; [discriminate|]. by intros [= <- _]. }
  repeat case_decide; try apply Hgen. discriminate.
Qed.

(** X19: the result of an execute operation is made of the success flag
    and the output of the engine only: the error text of the engine is not
    passed on, the list of errors is empty, and the metadata report time 0
    and memory 0. *)
Theorem execute_operation_drops_error (agent : AIAgent.t) (operation : CodeOperation.t)
    (h : Host) (s : Sys) (R : OperationResult.t) :
  CodeOperation.operation_type operation = EXECUTE →
  (AIAgent.execute_operation agent operation h s).1 = Ret R →
  ∃ r, (CodeExecutor.execute_code (Executor.code_executor (AIAgent.executor agent))
          (CodeOperation.content operation) (CodeOperation.language operation) h s).1 = Ret r
       ∧ R = OperationResult.mk (success r) (output r)
               (<[py "memory_usage" := VInt 0]> (<[py "execution_time" := VInt 0]> ∅)) [].
Proof.
  intros Hop. unfold AIAgent.execute_operation. rewrite Hop. simpl.
  unfold try_except, AIAgent._handle_execute, Executor.execute_code, bind.
  destruct (CodeExecutor.execute_code _ _ _ h s) as [[r|e|] s0] eqn:E; cbn [fst snd ret].
  - intros [= <-]. exists r. split; [done|].
    apply rw_execute_code_defaults in E as [Ht Hm].
    destruct (to_dict_lookup r) as (Hs & Ho & _ & Htime & Hmem).
    unfold AIAgent.get_success, AIAgent.get_output, dict_get.
    by rewrite Hs, Ho, Htime, Hmem, Ht, Hm.
  - apply execute_code_raises_base in E. rewrite E. discriminate.
  - discriminate.
Qed.

Lemma execute_operation_drops_error_witness :
  ∃ r, (CodeExecutor.execute_code sample_executor (py "rm -rf /") (py "shell")
          (sample_host (exits_with 0 0 [] [])) (sample_sys [])).1 = Ret r
       ∧ OperationResult.mk false [] 
           (<[py "memory_usage" := VInt 0]> (<[py "execution_time" := VInt 0]> ∅)) []
         = OperationResult.mk (success r) (output r)
             (<[py "memory_usage" := VInt 0]> (<[py "execution_time" := VInt 0]> ∅)) [].
Proof.
  apply (execute_operation_drops_error sample_agent
           (sample_operation EXECUTE (py "rm -rf /") (py "shell") [])
           (sample_host (exits_with 0 0 [] [])) (sample_sys [])).
  - reflexivity.
  - vm_compute. reflexivity.
Defined.

(** X20: suggest, edit and test operations never reach the sandbox: the
    host is left exactly as it was, no process is spawned and no file is
    written. *)
Theorem prompt_operations_keep_host (agent : AIAgent.t) (operation : CodeOperation.t)
    (h : Host) (s : Sys) :
  CodeOperation.operation_type operation ≠ INSTALL →
  CodeOperation.operation_type operation ≠ EXECUTE →
  (AIAgent.execute_operation agent operation h s).2 = s.
Proof.
  intros Hi He. unfold AIAgent.execute_operation, try_except.
  destruct (CodeOperation.operation_type operation); try done; simpl;
    unfold AIAgent._handle_suggest, AIAgent._handle_edit, AIAgent._handle_test,
      bind, AIAgent.ask, ret, raise;
    destruct (AIAgent.generate_response agent _) as [response|e|]; try done;
    by destruct (is_Exception e).
Qed.

Lemma prompt_operations_keep_host_witness :
  (AIAgent.execute_operation sample_agent
     (sample_operation TEST (py "def f(): pass") (py "python") [])
     host_without_runtime (sample_sys [])).2 = sample_sys [].
Proof.
  apply (prompt_operations_keep_host sample_agent
           (sample_operation TEST (py "def f(): pass") (py "python") [])
           host_without_runtime (sample_sys [])); discriminate.
Defined.

Example test_prompt :
  (AIAgent.execute_operation sample_agent
     (sample_operation TEST (py "x = 1") (py "python") [])
     host_without_runtime (sample_sys [])).1
  = Ret (OperationResult.mk true
           (py "Generate tests for the following python code:" ++ [10; 10]
            ++ py "x = 1" ++ [10; 10]
            ++ py "Please provide comprehensive test cases covering the main functionality.")
           (<[py "test_framework" := VStr (py "pytest")]> ∅) []).
Proof. vm_compute. reflexivity. Qed.

Example str_int_examples : str_int (-5) = py "-5" ∧ str_int 0 = py "0" ∧ str_int 120 = py "120".
Proof. repeat split; reflexivity. Qed.

Example slice_examples :
  slice (py "abcdef") 1 4 = py "bcd" ∧ slice (py "abcdef") 0 (-2) = py "abcd"
  ∧ slice (py "abcdef") 4 100 = py "ef" ∧ slice (py "abcdef") 5 2 = [].
Proof. repeat split; reflexivity. Qed.

(** ** The runners on a child that exits *)

Lemma lower_char_idempotent c : lower_char (lower_char c) = lower_char c.
Proof.
  unfold lower_char.
  destruct ((0x41 <=? c) && (c <=? 0x5A)) eqn:E; [|by rewrite E].
  apply andb_true_iff in E as [H1%N.leb_le H2%N.leb_le].
  destruct ((0x41 <=? c + 32) && (c + 32 <=? 0x5A)) eqn:E'; [|done].
  apply andb_true_iff in E' as [_ H4%N.leb_le]. lia.
Qed.

Lemma lower_idempotent s : lower (lower s) = lower s.
Proof.
  unfold lower. rewrite <- list_fmap_compose. apply list_fmap_ext.
  intros i c _. apply lower_char_idempotent.
Qed.

(** X21: the language of a supported [execute_code] call is matched
    without regard to upper and lower case of its ASCII letters: a call
    with a supported language does exactly what the call with the
    lower-cased name does. *)
Theorem execute_code_ignores_case (self : CodeExecutor.t) (code language : pystr)
    (h : Host) (s : Sys) :
  lower language ∈ [py "python"; py "javascript"; py "shell"] →
  CodeExecutor.execute_code self code language h s
  = CodeExecutor.execute_code self code (lower language) h s.
Proof.
  intros Hin. unfold CodeExecutor.execute_code. rewrite lower_idempotent.
  destruct (CodeExecutor.supported_languages self !! lower language) eqn:E; [done|].
  rewrite supported_lookup in E.
  repeat (apply elem_of_cons in Hin as [Heq|Hin]; [rewrite Heq in E; discriminate E|]).
  by apply elem_of_nil in Hin.
Qed.

Lemma execute_code_ignores_case_witness :
  CodeExecutor.execute_code sample_executor (py "print(1)") (py "PyThOn")
    (sample_host (exits_with 0 0 [] [])) (sample_sys [])
  = CodeExecutor.execute_code sample_executor (py "print(1)") (lower (py "PyThOn"))
      (sample_host (exits_with 0 0 [] [])) (sample_sys []).
Proof.
  apply (execute_code_ignores_case sample_executor (py "print(1)") (py "PyThOn")).
  vm_compute. left.
Defined.


